(** * Floss Pandora server: the Host and GATT gRPC services

    A shallow embedding of [floss/pandora/server/host.py] and
    [floss/pandora/server/gatt.py].

    Every RPC handler is an [async] Python method that registers observers
    on a Floss client, calls into the Bluetooth stack, awaits futures or
    queues that the observers feed, and unregisters in a [finally] block.
    The embedding keeps that shape:

    - a handler is a computation in the monad [M], which threads the
      handler's local variables and the list of calls it has issued, and
      ends with a value, with a Python exception, or blocked on an await;
    - everything the handler learns from outside (answers of the Bluetooth
      stack, what an await delivers, whether the task is cancelled there)
      is given by an environment record, one per handler;
    - an observer callback is a computation over the future or queue of its
      task dictionary. *)

From Stdlib Require Import List String ZArith Bool Arith Lia.
Import ListNotations.
Local Open Scope string_scope.
Local Open Scope list_scope.

(** ** Python values used by the two services *)

(** Addresses are the strings handed around by the Floss clients. *)
Definition address := string.

(** A remote device as delivered to the connection callbacks: the code
    unpacks it with [address, _ = remote_device]. *)
Definition remote_device := (address * string)%type.

(** [floss_enums] is imported by both files and is not part of them. The
    members below are the ones the two files name; any other value of the
    enumeration is kept with its number. *)
Inductive BondState := BONDING | BONDED | BondState_value (v : Z).
Inductive GattStatus := SUCCESS | GattStatus_value (v : Z).
Inductive SspVariant := CONSENT | SspVariant_value (v : Z).
Inductive LePhy := LePhy_INVALID | PHY1M | PHY2M | PHY_CODED.
Inductive OwnAddressType := OwnAddressType_PUBLIC | OwnAddressType_RANDOM.
Inductive BleAddressType :=
  BLE_ADDR_PUBLIC | BLE_ADDR_RANDOM | BLE_ADDR_PUBLIC_ID | BLE_ADDR_RANDOM_ID
| BleAddressType_value (v : Z).

Definition BondState_eqb (a b : BondState) : bool :=
  match a, b with
  | BONDING, BONDING | BONDED, BONDED => true
  | BondState_value x, BondState_value y => Z.eqb x y
  | _, _ => false
  end.

Definition GattStatus_eqb (a b : GattStatus) : bool :=
  match a, b with
  | SUCCESS, SUCCESS => true
  | GattStatus_value x, GattStatus_value y => Z.eqb x y
  | _, _ => false
  end.

Definition SspVariant_eqb (a b : SspVariant) : bool :=
  match a, b with
  | CONSENT, CONSENT => true
  | SspVariant_value x, SspVariant_value y => Z.eqb x y
  | _, _ => false
  end.

(** The second component of the pair a pairing callback resolves the
    [connect_device] future with when the connection failed: the three
    f-strings of [PairingObserver], kept with the values they format. *)
Inductive failure_reason :=
| failed_to_bond (a : address) (status : Z) (state : BondState)
| failed_on_connect_all_enabled_profiles (a : address)
| pairing_confirmation_failed (err : option string) (result : bool).

(** The messages of the [RuntimeError]s the handlers raise. *)
Inductive RuntimeError_message :=
| Failed_to_call_create_bond
| Failed_to_connect (a : address) (reason : option failure_reason)
| Failed_to_configure_MTU
| Failed_to_find_services
| Failed_to_fetch_remote_device_uuids (a : address)
| Failed_to_clear_cache.

(** The Python exceptions the two files raise or meet. [UnboundLocalError]
    is the subclass of [NameError] that reading a local variable before its
    first assignment raises; [InvalidStateError] is what
    [asyncio.Future.set_result] raises on a future that is already done;
    [TimeoutError] is raised by [asyncio.wait_for], [CancelledError] at an
    await of a cancelled task and [GeneratorExit] at the [yield] of a closed
    generator. *)
Inductive exn :=
| RuntimeError (m : RuntimeError_message)
| ValueError (m : string)
| AttributeError (attr : string)
| UnboundLocalError (var : string)
| InvalidStateError
| TimeoutError
| CancelledError
| GeneratorExit
| NotImplementedError (m : string).

(** [isinstance(e, NameError)]. *)
Definition is_NameError (e : exn) : bool :=
  match e with UnboundLocalError _ => true | _ => false end.

(** ** Observers, clients and the calls issued on them *)

(** The observer classes declared inside the handlers. Three handlers of
    the Host service each declare a class called [ConnectionObserver], and
    two handlers a [DiscoveryObserver]; the constructor names carry the
    handler where the class name is not unique. *)
Inductive observer_class :=
| PairingObserver
| WaitConnection_ConnectionObserver
| WaitDisconnection_ConnectionObserver
| AdvertisingObserver
| Advertise_ConnectionObserver
| ScanObserver
| InquiryResultObserver
| Inquiry_DiscoveryObserver
| MTUChangeObserver
| WriteAttObserver
| ReadCharacteristicFromHandleObserver
| ReadCharacteristicDescriptorFromHandleObserver
| DiscoverServices_DiscoveryObserver
| DiscoverySDPObserver
| ClearCacheObserver.

(** An observer object: its class and its identity ([id(observer)]), here
    the rank of the object among the observers the handler has created. *)
Record Observer := { obs_class : observer_class; obs_id : nat }.

(** Modelled from the spec: [utils.create_observer_name] is not part of
    the two files. A name is unique among the observers alive and combines
    the type of the observer with the identity of the instance: the name
    is kept as the observer it was made from. *)
Record observer_name := { name_of : Observer }.
Definition create_observer_name (o : Observer) : observer_name :=
  {| name_of := o |}.

(** The Floss clients reachable from [self.bluetooth]. *)
Inductive client := adapter_client | advertising_client | scanner_client | gatt_client.

Definition client_eqb (a b : client) : bool :=
  match a, b with
  | adapter_client, adapter_client
  | advertising_client, advertising_client
  | scanner_client, scanner_client
  | gatt_client, gatt_client => true
  | _, _ => false
  end.

(** ** Requests and responses

    [utils.address_from] and [utils.address_to] convert between the bytes of
    a message and the address string of the stack; they are not part of the
    two files. A request is represented with the address its bytes decode
    to, and a connection cookie with the address it encodes. *)
Record Connection := { cookie : address }.

Inductive PrimaryPhy := PRIMARY_1M | PRIMARY_CODED.
Inductive SecondaryPhy := SECONDARY_NONE | SECONDARY_1M | SECONDARY_2M | SECONDARY_CODED.
Inductive OwnAddressTypeMsg :=
  PUBLIC | RANDOM | RESOLVABLE_OR_PUBLIC | RESOLVABLE_OR_RANDOM.
Inductive DiscoverabilityMode :=
  NOT_DISCOVERABLE | DISCOVERABLE_LIMITED | DISCOVERABLE_GENERAL.

(** The advertising payload is passed through [utils.advertise_data_from]
    untouched by the handler. *)
Definition DataTypes := string.

Record AdvertiseRequest := {
  req_connectable : bool;
  req_interval : Z;
  req_primary_phy : option PrimaryPhy;
  req_secondary_phy : option SecondaryPhy;
  req_own_address_type : option OwnAddressTypeMsg;
  req_data : DataTypes }.

(** The [parameters] dictionary of [Advertise]. A phy entry holds either
    the integer the dictionary is created with or a [LePhy] member. *)
Inductive phy_value := phy_int (v : Z) | phy_enum (p : LePhy).
Inductive own_address_value := own_int (v : Z) | own_enum (t : OwnAddressType).

Record advertising_parameters := {
  connectable : bool;
  scannable : bool;
  is_legacy : bool;
  is_anonymous : bool;
  include_tx_power : bool;
  primary_phy : phy_value;
  secondary_phy : phy_value;
  interval : Z;
  tx_power_level : Z;
  own_address_type : own_address_value }.

(** One entry of the scan-result queue (the dictionary keys the handler
    reads). *)
Record scan_result := {
  sr_tx_power : Z;
  sr_rssi : Z;
  sr_advertising_sid : Z;
  sr_periodic_adv_int : Z;
  sr_primary_phy : LePhy;
  sr_secondary_phy : LePhy;
  sr_address : address;
  sr_addr_type : BleAddressType;
  sr_flags : Z }.

Inductive scan_address :=
| addr_unset
| addr_public (a : address)
| addr_random (a : address)
| addr_public_identity (a : address)
| addr_random_static_identity (a : address).

Record ScanningResponse := {
  resp_tx_power : Z;
  resp_rssi : Z;
  resp_sid : Z;
  resp_periodic_advertising_interval : Z;
  resp_primary_phy : option PrimaryPhy;
  resp_secondary_phy : option SecondaryPhy;
  resp_address : scan_address;
  resp_le_discoverability_mode : DiscoverabilityMode }.

(** What a streaming handler yields. *)
Inductive streamed :=
| AdvertiseResponse (c : Connection)
| ScanningResponse_ (r : ScanningResponse)
| InquiryResponse (a : address).

(** GATT messages. The status of a [WriteResponse] is either the status
    the write-complete callback delivered or [gatt_pb2.INVALID_HANDLE]. *)
Inductive AttStatusCode := att_status (s : GattStatus) | INVALID_HANDLE.
Record WriteRequest := { wr_connection : address; wr_handle : Z; wr_value : string }.
Record WriteResponse := { wresp_handle : Z; wresp_status : AttStatusCode }.
Record DiscoverServicesSdpResponse := { service_uuids : list string }.

(** ** Calls

    The calls a handler or a callback issues on the Bluetooth stack, in the
    order issued. Queries that only read the state of the stack
    ([is_connected], [is_bonded], [get_bond_state], ...) are answered by the
    environment and leave no entry. A call on the stack is taken to return:
    the exceptions of a run are the ones the two files raise themselves and
    the ones Python and asyncio raise at a statement of the two files. *)
Inductive action :=
| register_callback_observer (c : client) (n : observer_name) (o : Observer)
| unregister_callback_observer (c : client) (n : observer_name) (o : Observer)
| server_stop
| bluetooth_reset
| connect_device (a : address)
| create_bond (a : address)
| disconnect_device (a : address)
| connect_all_enabled_profiles (a : address)
| set_pairing_confirmation (a : address) (accept : bool)
| start_advertising_set (p : advertising_parameters) (d : DataTypes)
| stop_advertising_set (advertiser_id : option Z)
| register_scanner
| start_scan (scanner_id : option Z)
| stop_scan (scanner_id : Z)
| start_discovery
| stop_discovery
| set_discoverable (mode : DiscoverabilityMode) (duration : Z)
| configure_mtu (a : address) (mtu : Z)
| read_characteristic (a : address) (handle : Z) (auth_req : Z)
| write_characteristic (a : address) (handle : Z) (write_type auth_req : Z) (value : string)
| read_descriptor (a : address) (handle : Z) (auth_req : Z)
| write_descriptor (a : address) (handle : Z) (auth_req : Z) (value : string)
| btif_gattc_discover_service_by_uuid (a : address) (uuid : string)
| discover_services (a : address)
| fetch_remote (a : address)
| refresh_device (a : address)
| sleep (seconds : Z)
| yield_ (r : streamed).

(** ** The handler monad *)

(** How a computation ends: with a value, with an exception, or suspended
    for ever at an await that nothing resolves. *)
Inductive outcome (A : Type) := Ok (a : A) | Exc (e : exn) | Blocked.
Arguments Ok {A} a.
Arguments Exc {A} e.
Arguments Blocked {A}.

(** The part of the run that is not a local variable: the calls issued so
    far and the number of observer objects created so far. *)
Record world := { trace : list action; objects : nat }.

Definition M (L A : Type) : Type := L -> world -> outcome A * L * world.

Definition ret {L A} (a : A) : M L A := fun l w => (Ok a, l, w).

Definition bind {L A B} (c : M L A) (k : A -> M L B) : M L B :=
  fun l w =>
    match c l w with
    | (Ok a, l', w') => k a l' w'
    | (Exc e, l', w') => (Exc e, l', w')
    | (Blocked, l', w') => (Blocked, l', w')
    end.

Declare Scope py_scope.
Delimit Scope py_scope with py.
Notation "x <- c ;; k" := (bind c (fun x => k))
  (at level 61, c at next level, right associativity) : py_scope.
Notation "c ;; k" := (bind c (fun _ => k))
  (at level 61, right associativity) : py_scope.
Local Open Scope py_scope.

Definition raise {L A} (e : exn) : M L A := fun l w => (Exc e, l, w).

(** [pass]. *)
Definition pass {L} : M L unit := ret tt.

(** Reading and assigning local variables. *)
Definition locals {L} : M L L := fun l w => (Ok l, l, w).
Definition assign {L} (f : L -> L) : M L unit := fun l w => (Ok tt, f l, w).

(** A local variable that the function assigns somewhere: unbound until
    the first assignment runs. Reading it unbound raises
    [UnboundLocalError]. *)
Inductive local (T : Type) := Unbound | Bound (v : T).
Arguments Unbound {T}.
Arguments Bound {T} v.

Definition read {L T} (var : string) (get : L -> local T) : M L T :=
  fun l w =>
    match get l with
    | Bound v => (Ok v, l, w)
    | Unbound => (Exc (UnboundLocalError var), l, w)
    end.

(** Issuing a call on the stack. *)
Definition call {L} (a : action) : M L unit :=
  fun l w => (Ok tt, l, {| trace := trace w ++ [a]; objects := objects w |}).

(** Creating an observer object of class [c]. *)
Definition new_observer {L} (c : observer_class) : M L Observer :=
  fun l w =>
    (Ok {| obs_class := c; obs_id := objects w |}, l,
     {| trace := trace w; objects := S (objects w) |}).

(** [try: body finally: fin]. The [finally] block runs when the body ends
    with a value or an exception; an exception of the [finally] block
    replaces the pending outcome. A body that stays blocked has not left
    the [try]. *)
Definition try_finally {L A} (body : M L A) (fin : M L unit) : M L A :=
  fun l w =>
    match body l w with
    | (Blocked, l', w') => (Blocked, l', w')
    | (Ok a, l', w') =>
        match fin l' w' with
        | (Ok _, l'', w'') => (Ok a, l'', w'')
        | (Exc e, l'', w'') => (Exc e, l'', w'')
        | (Blocked, l'', w'') => (Blocked, l'', w'')
        end
    | (Exc e, l', w') =>
        match fin l' w' with
        | (Ok _, l'', w'') => (Exc e, l'', w'')
        | (Exc e', l'', w'') => (Exc e', l'', w'')
        | (Blocked, l'', w'') => (Blocked, l'', w'')
        end
    end.

(** [for x in xs: body x]. *)
Fixpoint for_each {L T} (xs : list T) (body : T -> M L unit) : M L unit :=
  match xs with
  | [] => ret tt
  | x :: rest => body x ;; for_each rest body
  end.

(** What an await meets: the awaited future or queue delivers [v]; the
    task is cancelled while suspended there; or nothing ever arrives. *)
Inductive awaited (T : Type) := Resolved (v : T) | Cancelled | NoEvent.
Arguments Resolved {T} v.
Arguments Cancelled {T}.
Arguments NoEvent {T}.

(** [await x] ([timeout = None]) and [await asyncio.wait_for(x, timeout=t)]
    ([timeout = Some t]). Without a timeout an await that nothing resolves
    never returns; [wait_for] turns it into [TimeoutError]. *)
Definition await {L T} (timeout : option Z) (a : awaited T) : M L T :=
  fun l w =>
    match a with
    | Resolved v => (Ok v, l, w)
    | Cancelled => (Exc CancelledError, l, w)
    | NoEvent =>
        match timeout with
        | Some _ => (Exc TimeoutError, l, w)
        | None => (Blocked, l, w)
        end
    end.

(** [await asyncio.sleep(seconds)]: the task wakes up, or is cancelled
    while asleep. *)
Inductive slept := Woke | CancelledAsleep.

Definition asyncio_sleep {L} (seconds : Z) (s : slept) : M L unit :=
  call (sleep seconds) ;;
  match s with
  | Woke => ret tt
  | CancelledAsleep => raise CancelledError
  end.

(** [yield r] in an async generator: the consumer asks for the next item,
    closes the generator, or never comes back. *)
Inductive consumer := Next | Close | Abandon.

Definition yield {L} (r : streamed) (c : consumer) : M L unit :=
  call (yield_ r) ;;
  match c with
  | Next => ret tt
  | Close => raise GeneratorExit
  | Abandon => fun l w => (Blocked, l, w)
  end.

(** Running a computation from the locals [l0], with no call issued yet. *)
Definition run {L A} (c : M L A) (l0 : L) : outcome A * L * world :=
  c l0 {| trace := []; objects := 0 |}.

Definition result_of {L A} (r : outcome A * L * world) : outcome A := fst (fst r).
Definition locals_of {L A} (r : outcome A * L * world) : L := snd (fst r).
Definition calls_of {L A} (r : outcome A * L * world) : list action := trace (snd r).

(** The call has ended: it returned or raised. *)
Definition ended {A} (o : outcome A) : bool :=
  match o with Blocked => false | _ => true end.

(** ** Futures and queues fed by the observers *)

(** Modelled from the spec: [utils.glib_callback], the decorator of every
    callback, is not part of the two files. The specification describes a
    callback as the method itself, called by the stack on its own delivery
    context: the decorator is taken to call the method and to pass on what
    the method returns or raises. *)
Definition glib_callback {L A} (method : M L A) : M L A := method.

(** An [asyncio.Future]: pending, or done with a result. *)
Inductive Future (V : Type) := Pending | Done (v : V).
Arguments Pending {V}.
Arguments Done {V} v.

(** [future.set_result(v)]: sets the result of a pending future and raises
    [InvalidStateError] on a future that is already done. *)
Definition set_result {V} (v : V) : M (Future V) unit :=
  fun f w =>
    match f with
    | Pending => (Ok tt, Done v, w)
    | Done _ => (Exc InvalidStateError, f, w)
    end.

(** A future together with the calls of [future.set_result] that callbacks
    have handed to its event loop with
    [future.get_loop().call_soon_threadsafe(future.set_result, v)] and that
    the loop has not run yet. *)
Record LoopFuture (V : Type) := { fut : Future V; ready : list V }.
Arguments fut {V} _.
Arguments ready {V} _.

Definition call_soon_threadsafe_set_result {V} (v : V) : M (LoopFuture V) unit :=
  assign (fun lf => {| fut := fut lf; ready := ready lf ++ [v] |}).

(** The loop runs the handles it was given, in order; an exception of a
    handle is passed to the loop's exception handler and goes no further.
    The number returned counts the handles that raised. *)
Fixpoint run_ready {V} (f : Future V) (handles : list V) : Future V * nat :=
  match handles with
  | [] => (f, 0)
  | v :: rest =>
      match f with
      | Pending => run_ready (Done v) rest
      | Done _ => let '(f', n) := run_ready f rest in (f', S n)
      end
  end.

(** What an await of the future meets once no more event is to come. *)
Definition awaited_of {V} (f : Future V) : awaited V :=
  match f with Done v => Resolved v | Pending => NoEvent end.

(** Membership in a Python set of addresses, and [set.add]. *)
Definition mem (a : address) (s : list address) : bool :=
  existsb (String.eqb a) s.
Definition set_add (a : address) (s : list address) : list address :=
  if mem a s then s else a :: s.

(** * host.py *)
Module HostService.

(** ** The service object

    [__init__] sets three attributes; [waited_connections] is the only one
    the handlers change. *)
Record HostService := { waited_connections : list address }.

Definition __init__ : HostService := {| waited_connections := [] |}.

Inductive attribute := attr_server | attr_bluetooth | attr_waited_connections.

(** [self.<attr>]: the instance attributes are the ones [__init__] set. *)
Definition getattr (attr : string) : option attribute :=
  if attr =? "server" then Some attr_server
  else if attr =? "bluetooth" then Some attr_bluetooth
  else if attr =? "waited_connections" then Some attr_waited_connections
  else None.

(** The local variables of a unary handler that its [finally] block reads,
    and [self]. *)
Record frame := {
  self : HostService;
  name : local observer_name;
  observer : local Observer }.

Definition enter (s : HostService) : frame :=
  {| self := s; name := Unbound; observer := Unbound |}.

Definition set_self (s : HostService) (l : frame) : frame :=
  {| self := s; name := name l; observer := observer l |}.
Definition set_name (n : observer_name) (l : frame) : frame :=
  {| self := self l; name := Bound n; observer := observer l |}.
Definition set_observer (o : Observer) (l : frame) : frame :=
  {| self := self l; name := name l; observer := Bound o |}.

(** [self.<attr>.add(a)]. *)
Definition self_attr_add (attr : string) (a : address) : M frame unit :=
  match getattr attr with
  | Some attr_waited_connections =>
      assign (fun l => set_self {| waited_connections := set_add a (waited_connections (self l)) |} l)
  | Some _ => raise (AttributeError "add")
  | None => raise (AttributeError attr)
  end.

(** [self.bluetooth.adapter_client.unregister_callback_observer(name, observer)]
    as the [finally] blocks of the unary handlers write it. *)
Definition unregister_name_observer (c : client) : M frame unit :=
  n <- read "name" name ;;
  o <- read "observer" observer ;;
  call (unregister_callback_observer c n o).

(** ** Reset and FactoryReset *)

Definition FactoryReset : M frame unit :=
  assign (set_self {| waited_connections := [] |}) ;;
  call server_stop ;;
  ret tt.

Definition Reset : M frame unit :=
  assign (set_self {| waited_connections := [] |}) ;;
  call bluetooth_reset ;;
  ret tt.

(** ** Connect *)

(** What the adapter client answers to a pairing callback. *)
Record adapter_state := {
  is_connected : address -> bool;
  is_bonded : address -> bool;
  connect_all_enabled_profiles_ok : address -> bool }.

(** The result type of the [connect_device] future: [(success, reason)]. *)
Definition connect_result := (bool * option failure_reason)%type.

(** The callbacks of [PairingObserver]. [client] is [self.client] as it
    answers during the callback, [task_address] is [self.task['address']]
    and the state is the future [self.task['connect_device']]. Calls to
    [logging] are left out. *)
Section PairingObserver.
Variable client : adapter_state.
Variable task_address : address.

Definition PairingObserver_on_bond_state_changed
    (status : Z) (address_ : address) (state : BondState) : M (Future connect_result) unit :=
  glib_callback (
    if negb (address_ =? task_address) then ret tt
    else if negb (status =? 0)%Z then
      set_result (false, Some (failed_to_bond address_ status state))
    else if BondState_eqb state BONDED then
      if negb (is_connected client task_address) then
        call (connect_all_enabled_profiles task_address) ;;
        if negb (connect_all_enabled_profiles_ok client task_address) then
          set_result (false, Some (failed_on_connect_all_enabled_profiles task_address))
        else ret tt
      else set_result (true, None)
    else ret tt).

Definition PairingObserver_on_ssp_request
    (remote : remote_device) (class_of_device : Z) (variant : SspVariant) (passkey : Z)
    : M (Future connect_result) unit :=
  glib_callback (
    let address_ := fst remote in
    if negb (address_ =? task_address) then ret tt
    else if SspVariant_eqb variant CONSENT then
      call (set_pairing_confirmation address_ true)
    else ret tt).

(** [err] is truthy when it is a non-empty string. *)
Definition truthy (err : option string) : bool :=
  match err with
  | Some s => negb (s =? "")
  | None => false
  end.

Definition PairingObserver_on_set_pairing_confirmation
    (err : option string) (result : bool) : M (Future connect_result) unit :=
  glib_callback (
    if truthy err || negb result then
      set_result (false, Some (pairing_confirmation_failed err result))
    else ret tt).

Definition PairingObserver_on_device_connected
    (remote : remote_device) : M (Future connect_result) unit :=
  glib_callback (
    let address_ := fst remote in
    if negb (address_ =? task_address) then ret tt
    else if is_bonded client address_ then set_result (true, None)
    else ret tt).
End PairingObserver.

(** The events a registered [PairingObserver] is called with, and the
    callback each one runs. *)
Inductive pairing_event :=
| bond_state_changed (status : Z) (a : address) (state : BondState)
| ssp_request (remote : remote_device) (class_of_device : Z) (variant : SspVariant) (passkey : Z)
| set_pairing_confirmation_returned (err : option string) (result : bool)
| device_connected (remote : remote_device).

Definition PairingObserver_callback (client : adapter_state) (task_address : address)
    (ev : pairing_event) : M (Future connect_result) unit :=
  match ev with
  | bond_state_changed status a state =>
      PairingObserver_on_bond_state_changed client task_address status a state
  | ssp_request remote cod variant passkey =>
      PairingObserver_on_ssp_request task_address remote cod variant passkey
  | set_pairing_confirmation_returned err result =>
      PairingObserver_on_set_pairing_confirmation err result
  | device_connected remote =>
      PairingObserver_on_device_connected client task_address remote
  end.

(** The events delivered one after the other, each with the answers of
    the adapter client at that time. A callback that raises does so in the
    thread that delivers the events; the next event is delivered all the
    same. The outcomes of the callbacks are collected in order. *)
Fixpoint deliver (task_address : address) (evs : list (adapter_state * pairing_event))
    (f : Future connect_result) (w : world)
    : list (outcome unit) * Future connect_result * world :=
  match evs with
  | [] => ([], f, w)
  | (client, ev) :: rest =>
      let '(o, f', w') := PairingObserver_callback client task_address ev f w in
      let '(os, f'', w'') := deliver task_address rest f' w' in
      (o :: os, f'', w'')
  end.

Record ConnectRequest := { connect_address : address }.
Record ConnectResponse := { connect_connection : Connection }.

(** What [Connect] meets: the answers of [self.bluetooth] and what the
    await of [connect_device] delivers. *)
Record Connect_env := {
  env_is_connected : bool;
  env_is_bonded : bool;
  env_create_bond : bool;
  env_connect_device : awaited connect_result }.

Definition Connect (env : Connect_env) (request : ConnectRequest) : M frame ConnectResponse :=
  let address_ := connect_address request in
  (if negb (env_is_connected env) then
     try_finally
       (o <- new_observer PairingObserver ;;
        assign (set_observer o) ;;
        assign (set_name (create_observer_name o)) ;;
        call (register_callback_observer adapter_client (create_observer_name o) o) ;;
        (if env_is_bonded env then call (connect_device address_)
         else
           call (create_bond address_) ;;
           if negb (env_create_bond env) then raise (RuntimeError Failed_to_call_create_bond)
           else ret tt) ;;
        r <- await None (env_connect_device env) ;;
        let '(success, reason) := r in
        if negb success then raise (RuntimeError (Failed_to_connect address_ reason))
        else ret tt)
       (unregister_name_observer adapter_client)
   else ret tt) ;;
  ret {| connect_connection := {| cookie := connect_address request |} |}.

(** ** WaitConnection and WaitDisconnection *)

(** The callback of the [ConnectionObserver] of [WaitConnection]; the state
    is the future [self.task['wait_connection']]. *)
Definition WaitConnection_on_device_connected (task_address : address)
    (remote : remote_device) : M (Future address) unit :=
  glib_callback (
    let address_ := fst remote in
    if negb (address_ =? task_address) then ret tt
    else set_result address_).

(** The callback of the [ConnectionObserver] of [WaitDisconnection]. *)
Definition WaitDisconnection_on_device_disconnected (task_address : address)
    (remote : remote_device) : M (Future address) unit :=
  glib_callback (
    let address_ := fst remote in
    if negb (address_ =? task_address) then ret tt
    else set_result address_).

Record WaitConnectionRequest := { wait_address : option address }.
Record WaitConnectionResponse := { wait_connection : Connection }.

Record WaitConnection_env := {
  wc_is_connected : bool;
  wc_wait_connection : awaited address }.

Definition WaitConnection (env : WaitConnection_env) (request : WaitConnectionRequest)
    : M frame WaitConnectionResponse :=
  match wait_address request with
  | None => raise (ValueError "Request address field must be set.")
  | Some address_ =>
      l <- locals ;;
      (if negb (wc_is_connected env) || negb (mem address_ (waited_connections (self l))) then
         try_finally
           (o <- new_observer WaitConnection_ConnectionObserver ;;
            assign (set_observer o) ;;
            assign (set_name (create_observer_name o)) ;;
            call (register_callback_observer adapter_client (create_observer_name o) o) ;;
            _ <- await None (wc_wait_connection env) ;;
            ret tt)
           (unregister_name_observer adapter_client) ;;
         self_attr_add "waited_connection" address_
       else ret tt) ;;
      ret {| wait_connection := {| cookie := address_ |} |}
  end.

(** The request of [WaitDisconnection]. [host_pb2] is generated from the
    Pandora interface and is not part of [host.py]; its message
    [WaitDisconnectionRequest] has the one field [connection], as the
    request of [Disconnect] has. *)
Record WaitDisconnectionRequest := { wait_disconnection_connection : Connection }.

(** [request.address] on a [WaitDisconnectionRequest]: the message has no
    field of that name, and reading it raises. *)
Definition WaitDisconnectionRequest_address (request : WaitDisconnectionRequest)
    : M frame (option address) :=
  raise (AttributeError "address").

Record WaitDisconnection_env := {
  wd_is_connected : bool;
  wd_wait_disconnection : awaited address }.

Definition WaitDisconnection (env : WaitDisconnection_env) (request : WaitDisconnectionRequest)
    : M frame unit :=
  request_address <- WaitDisconnectionRequest_address request ;;
  match request_address with
  | None => raise (ValueError "Request address field must be set")
  | Some address_ =>
      (if wd_is_connected env then
         try_finally
           (o <- new_observer WaitDisconnection_ConnectionObserver ;;
            assign (set_observer o) ;;
            assign (set_name (create_observer_name o)) ;;
            call (register_callback_observer adapter_client (create_observer_name o) o) ;;
            _ <- await None (wd_wait_disconnection env) ;;
            ret tt)
           (unregister_name_observer adapter_client)
       else ret tt) ;;
      ret tt
  end.

(** ** The handlers without an observer *)

Definition ReadLocalAddress (local_address : address) : M frame address :=
  ret local_address.

Definition ConnectLE : M frame unit :=
  raise (NotImplementedError "Method not implemented!").

Definition Disconnect (is_connected_now : bool) (connection : Connection) : M frame unit :=
  let address_ := cookie connection in
  (if is_connected_now then call (disconnect_device address_) else ret tt) ;;
  ret tt.

Definition SetDiscoverabilityMode (mode : DiscoverabilityMode) : M frame unit :=
  let duration := 600%Z in
  call (set_discoverable mode duration) ;;
  ret tt.

Definition SetConnectabilityMode : M frame unit :=
  raise (NotImplementedError "Method not implemented!").

(** ** Advertise *)

Definition with_primary_phy (v : phy_value) (p : advertising_parameters) :=
  {| connectable := connectable p; scannable := scannable p; is_legacy := is_legacy p;
     is_anonymous := is_anonymous p; include_tx_power := include_tx_power p;
     primary_phy := v; secondary_phy := secondary_phy p; interval := interval p;
     tx_power_level := tx_power_level p; own_address_type := own_address_type p |}.
Definition with_secondary_phy (v : phy_value) (p : advertising_parameters) :=
  {| connectable := connectable p; scannable := scannable p; is_legacy := is_legacy p;
     is_anonymous := is_anonymous p; include_tx_power := include_tx_power p;
     primary_phy := primary_phy p; secondary_phy := v; interval := interval p;
     tx_power_level := tx_power_level p; own_address_type := own_address_type p |}.
Definition with_own_address_type (v : own_address_value) (p : advertising_parameters) :=
  {| connectable := connectable p; scannable := scannable p; is_legacy := is_legacy p;
     is_anonymous := is_anonymous p; include_tx_power := include_tx_power p;
     primary_phy := primary_phy p; secondary_phy := secondary_phy p; interval := interval p;
     tx_power_level := tx_power_level p; own_address_type := v |}.

(** The [parameters] dictionary as it stands when the [try] is entered. A
    request field that holds none of the values tested leaves its entry as
    created. *)
Definition Advertise_parameters (request : AdvertiseRequest) : advertising_parameters :=
  let parameters :=
    {| connectable := req_connectable request; scannable := true; is_legacy := true;
       is_anonymous := false; include_tx_power := true;
       primary_phy := phy_int 1; secondary_phy := phy_int 1;
       interval := req_interval request; tx_power_level := 127;
       own_address_type := own_int (-1) |} in
  let parameters :=
    match req_primary_phy request with
    | Some PRIMARY_1M => with_primary_phy (phy_enum PHY1M) parameters
    | Some PRIMARY_CODED => with_primary_phy (phy_enum PHY_CODED) parameters
    | None => parameters
    end in
  let parameters :=
    match req_secondary_phy request with
    | Some SECONDARY_NONE => with_secondary_phy (phy_enum LePhy_INVALID) parameters
    | Some SECONDARY_1M => with_secondary_phy (phy_enum PHY1M) parameters
    | Some SECONDARY_2M => with_secondary_phy (phy_enum PHY2M) parameters
    | Some SECONDARY_CODED => with_secondary_phy (phy_enum PHY_CODED) parameters
    | None => parameters
    end in
  match req_own_address_type request with
  | Some PUBLIC | Some RESOLVABLE_OR_PUBLIC =>
      with_own_address_type (own_enum OwnAddressType_PUBLIC) parameters
  | Some RANDOM | Some RESOLVABLE_OR_RANDOM =>
      with_own_address_type (own_enum OwnAddressType_RANDOM) parameters
  | None => parameters
  end.

(** The callback of [AdvertisingObserver]; the state is the future
    [self.task['start_advertising']] and [task_reg_id] is
    [self.task['reg_id']]. *)
Definition AdvertisingObserver_on_advertising_set_started (task_reg_id : Z)
    (reg_id advertiser_id tx_power : Z) (status : option GattStatus)
    : M (Future (option Z)) unit :=
  glib_callback (
    if negb (reg_id =? task_reg_id)%Z then ret tt
    else
      let advertiser_id :=
        match status with
        | None => None
        | Some s => if negb (GattStatus_eqb s SUCCESS) then None else Some advertiser_id
        end in
      set_result advertiser_id).

(** The callback of the [ConnectionObserver] of [Advertise]; the state is
    the queue [self.task['connections']]. *)
Definition Advertise_on_device_connected (remote : remote_device) : M (list address) unit :=
  glib_callback (
    let address_ := fst remote in
    assign (fun connections => connections ++ [address_])).

(** The locals of [Advertise] that its [finally] block reads. *)
Record Advertise_frame := {
  started_ids : list (option Z);
  observers : list (observer_name * Observer) }.

Definition started_ids_append (i : option Z) (l : Advertise_frame) :=
  {| started_ids := started_ids l ++ [i]; observers := observers l |}.
Definition observers_append (n : observer_name) (o : Observer) (l : Advertise_frame) :=
  {| started_ids := started_ids l; observers := observers l ++ [(n, o)] |}.

(** What one turn of the [while True] loop meets: whether
    [advertising_client.active_advs] is non-empty, what the wait for the
    started advertising set delivers, and what happens at each later
    suspension of the turn. *)
Record Advertise_turn := {
  turn_active_advs : bool;
  turn_start_advertising : awaited (option Z);
  turn_idle_sleep : slept;
  turn_connection : awaited address;
  turn_consumer : consumer;
  turn_restart_sleep : slept }.

Record Advertise_env := { adv_turns : list Advertise_turn }.

(** The loop, one turn per element of the environment. When the
    environment has no further turn the handler is left suspended. *)
Fixpoint Advertise_loop (request : AdvertiseRequest) (turns : list Advertise_turn)
    : M Advertise_frame unit :=
  match turns with
  | [] => fun l w => (Blocked, l, w)
  | t :: rest =>
      (if negb (turn_active_advs t) then
         call (start_advertising_set (Advertise_parameters request) (req_data request)) ;;
         o <- new_observer AdvertisingObserver ;;
         call (register_callback_observer advertising_client (create_observer_name o) o) ;;
         assign (observers_append (create_observer_name o) o) ;;
         advertiser_id <- await (Some 5%Z) (turn_start_advertising t) ;;
         assign (started_ids_append advertiser_id)
       else ret tt) ;;
      if negb (req_connectable request) then
        asyncio_sleep 1 (turn_idle_sleep t) ;;
        Advertise_loop request rest
      else
        address_ <- await None (turn_connection t) ;;
        yield (AdvertiseResponse {| cookie := address_ |}) (turn_consumer t) ;;
        asyncio_sleep 1 (turn_restart_sleep t) ;;
        Advertise_loop request rest
  end.

Definition Advertise_finally : M Advertise_frame unit :=
  l <- locals ;;
  for_each (observers l) (fun no =>
    call (unregister_callback_observer adapter_client (fst no) (snd no)) ;;
    call (unregister_callback_observer advertising_client (fst no) (snd no))) ;;
  l <- locals ;;
  for_each (started_ids l) (fun started => call (stop_advertising_set started)).

(** The body of the [try] block. *)
Definition Advertise_try (env : Advertise_env) (request : AdvertiseRequest)
    : M Advertise_frame unit :=
  (if req_connectable request then
     o <- new_observer Advertise_ConnectionObserver ;;
     call (register_callback_observer adapter_client (create_observer_name o) o) ;;
     assign (observers_append (create_observer_name o) o)
   else ret tt) ;;
  Advertise_loop request (adv_turns env).

Definition Advertise (env : Advertise_env) (request : AdvertiseRequest) : M Advertise_frame unit :=
  assign (fun _ => {| started_ids := []; observers := [] |}) ;;
  try_finally (Advertise_try env request) Advertise_finally.

(** ** Scan *)

Definition uuid := string.

(** The task dictionary of a [ScanObserver]: the future
    [task['register_scanner']] and the queue [task['scan_results']];
    [task['uuid']] is a parameter of the callbacks. *)
Record scan_task := {
  register_scanner_future : Future (option Z);
  scan_results : list scan_result }.

Definition ScanObserver_on_scanner_registered (task_uuid : uuid)
    (uuid_ : uuid) (scanner_id : Z) (status : GattStatus) : M scan_task unit :=
  glib_callback (
    if negb (uuid_ =? task_uuid) then ret tt
    else
      let scanner_id :=
        if negb (GattStatus_eqb status SUCCESS) then None else Some scanner_id in
      fun task w =>
        match set_result scanner_id (register_scanner_future task) w with
        | (o, f, w') =>
            (o, {| register_scanner_future := f; scan_results := scan_results task |}, w')
        end).

Definition ScanObserver_on_scan_result (result : scan_result) : M scan_task unit :=
  glib_callback (
    assign (fun task =>
      {| register_scanner_future := register_scanner_future task;
         scan_results := scan_results task ++ [result] |})).

(** The response built from one scan result. A field the handler does not
    assign stays unset. *)
Definition Scan_response (r : scan_result) : ScanningResponse :=
  {| resp_tx_power := sr_tx_power r;
     resp_rssi := sr_rssi r;
     resp_sid := sr_advertising_sid r;
     resp_periodic_advertising_interval := sr_periodic_adv_int r;
     resp_primary_phy :=
       match sr_primary_phy r with
       | PHY1M => Some PRIMARY_1M
       | PHY_CODED => Some PRIMARY_CODED
       | _ => None
       end;
     resp_secondary_phy :=
       match sr_secondary_phy r with
       | LePhy_INVALID => Some SECONDARY_NONE
       | PHY1M => Some SECONDARY_1M
       | PHY2M => Some SECONDARY_2M
       | PHY_CODED => Some SECONDARY_CODED
       end;
     resp_address :=
       match sr_addr_type r with
       | BLE_ADDR_PUBLIC => addr_public (sr_address r)
       | BLE_ADDR_RANDOM => addr_random (sr_address r)
       | BLE_ADDR_PUBLIC_ID => addr_public_identity (sr_address r)
       | BLE_ADDR_RANDOM_ID => addr_random_static_identity (sr_address r)
       | BleAddressType_value _ => addr_unset
       end;
     resp_le_discoverability_mode :=
       if negb (Z.land (sr_flags r) (Z.shiftl 1 0) =? 0)%Z then DISCOVERABLE_LIMITED
       else if negb (Z.land (sr_flags r) (Z.shiftl 1 1) =? 0)%Z then DISCOVERABLE_GENERAL
       else NOT_DISCOVERABLE |}.

(** The locals of [Scan] that its [finally] block reads; each is assigned
    [None] before the [try]. *)
Record Scan_frame := {
  scanner_id : option Z;
  scan_name : option observer_name;
  scan_observer : option Observer }.

Record Scan_turn := { turn_scan_result : awaited scan_result; turn_scan_consumer : consumer }.

Record Scan_env := {
  scan_register_scanner : awaited (option Z);
  scan_turns : list Scan_turn }.

Fixpoint Scan_loop (turns : list Scan_turn) : M Scan_frame unit :=
  match turns with
  | [] => fun l w => (Blocked, l, w)
  | t :: rest =>
      r <- await None (turn_scan_result t) ;;
      yield (ScanningResponse_ (Scan_response r)) (turn_scan_consumer t) ;;
      Scan_loop rest
  end.

Definition Scan (env : Scan_env) : M Scan_frame unit :=
  assign (fun _ => {| scanner_id := None; scan_name := None; scan_observer := None |}) ;;
  try_finally
    (call register_scanner ;;
     o <- new_observer ScanObserver ;;
     assign (fun l => {| scanner_id := scanner_id l; scan_name := scan_name l;
                         scan_observer := Some o |}) ;;
     assign (fun l => {| scanner_id := scanner_id l;
                         scan_name := Some (create_observer_name o);
                         scan_observer := scan_observer l |}) ;;
     call (register_callback_observer scanner_client (create_observer_name o) o) ;;
     id <- await (Some 10%Z) (scan_register_scanner env) ;;
     assign (fun l => {| scanner_id := id; scan_name := scan_name l;
                         scan_observer := scan_observer l |}) ;;
     call (start_scan id) ;;
     Scan_loop (scan_turns env))
    (l <- locals ;;
     match scanner_id l with
     | Some id => call (stop_scan id)
     | None => ret tt
     end ;;
     match scan_name l, scan_observer l with
     | Some n, Some o => call (unregister_callback_observer scanner_client n o)
     | _, _ => ret tt
     end).

(** ** Inquiry *)

(** The callback of [InquiryResultObserver]; the state is the queue
    [self.task['inquiry_results']]. *)
Definition InquiryResultObserver_on_device_found (remote : remote_device)
    : M (list address) unit :=
  glib_callback (
    let address_ := fst remote in
    assign (fun inquiry_results => inquiry_results ++ [address_])).

(** The callback of the [DiscoveryObserver] of [Inquiry]; the state is the
    future [self.task['start_inquiry']]. *)
Definition DiscoveryObserver_on_discovering_changed (task_discovering : bool)
    (discovering : bool) : M (Future bool) unit :=
  glib_callback (
    if Bool.eqb discovering task_discovering then set_result discovering
    else ret tt).

Record Inquiry_turn := { turn_device_found : awaited address; turn_inquiry_consumer : consumer }.

Record Inquiry_env := {
  inq_is_discovering : bool;
  inq_start_inquiry : awaited bool;
  inq_turns : list Inquiry_turn }.

Definition Inquiry_frame := list (observer_name * Observer).

Fixpoint Inquiry_loop (turns : list Inquiry_turn) : M Inquiry_frame unit :=
  match turns with
  | [] => fun l w => (Blocked, l, w)
  | t :: rest =>
      address_ <- await None (turn_device_found t) ;;
      yield (InquiryResponse address_) (turn_inquiry_consumer t) ;;
      Inquiry_loop rest
  end.

Definition Inquiry (env : Inquiry_env) : M Inquiry_frame unit :=
  assign (fun _ => []) ;;
  try_finally
    ((if negb (inq_is_discovering env) then
        o <- new_observer Inquiry_DiscoveryObserver ;;
        call (register_callback_observer adapter_client (create_observer_name o) o) ;;
        assign (fun observers => observers ++ [(create_observer_name o, o)]) ;;
        call start_discovery ;;
        _ <- await (Some 10%Z) (inq_start_inquiry env) ;;
        ret tt
      else ret tt) ;;
     o <- new_observer InquiryResultObserver ;;
     call (register_callback_observer adapter_client (create_observer_name o) o) ;;
     assign (fun observers => observers ++ [(create_observer_name o, o)]) ;;
     Inquiry_loop (inq_turns env))
    (call stop_discovery ;;
     observers <- locals ;;
     for_each observers (fun no =>
       call (unregister_callback_observer adapter_client (fst no) (snd no)))).

End HostService.

(** * gatt.py *)
Module GATTService.

(** Write characteristic, requesting acknowledgement by the remote device. *)
Definition WRITE_TYPE_DEFAULT : Z := 2.
(** No authentication required. *)
Definition AUTHENTICATION_NONE : Z := 0.

(** The local variables of a unary handler that its [finally] block
    reads. *)
Record frame := {
  name : local observer_name;
  observer : local Observer }.

Definition enter : frame := {| name := Unbound; observer := Unbound |}.

Definition set_name (n : observer_name) (l : frame) : frame :=
  {| name := Bound n; observer := observer l |}.
Definition set_observer (o : Observer) (l : frame) : frame :=
  {| name := name l; observer := Bound o |}.

Definition unregister_name_observer (c : client) : M frame unit :=
  n <- read "name" name ;;
  o <- read "observer" observer ;;
  call (unregister_callback_observer c n o).

(** ** The callbacks

    Every callback of this file compares the address of the event with
    [self.task['address']] and hands [future.set_result] to the loop of the
    future. Calls to [logging] are left out. *)
Section Callbacks.
Variable task_address : address.

Definition MTUChangeObserver_on_configure_mtu
    (addr : address) (mtu : Z) (status : GattStatus) : M (LoopFuture GattStatus) unit :=
  glib_callback (
    if negb (addr =? task_address) then ret tt
    else call_soon_threadsafe_set_result status).

Definition WriteAttObserver_on_characteristic_write
    (addr : address) (status : GattStatus) (handle : Z)
    : M (LoopFuture (GattStatus * Z)) unit :=
  glib_callback (
    if negb (addr =? task_address) then ret tt
    else call_soon_threadsafe_set_result (status, handle)).

Definition WriteAttObserver_on_descriptor_write
    (addr : address) (status : GattStatus) (handle : Z)
    : M (LoopFuture (GattStatus * Z)) unit :=
  glib_callback (
    if negb (addr =? task_address) then ret tt
    else call_soon_threadsafe_set_result (status, handle)).

Definition ReadCharacteristicFromHandleObserver_on_characteristic_read
    (addr : address) (status : GattStatus) (handle : Z) (value : string)
    : M (LoopFuture GattStatus) unit :=
  glib_callback (
    if negb (addr =? task_address) then ret tt
    else call_soon_threadsafe_set_result status).

Definition ReadCharacteristicDescriptorFromHandleObserver_on_descriptor_read
    (addr : address) (status : GattStatus) (handle : Z) (value : string)
    : M (LoopFuture GattStatus) unit :=
  glib_callback (
    if negb (addr =? task_address) then ret tt
    else call_soon_threadsafe_set_result status).

Definition DiscoveryObserver_on_search_complete {S : Type}
    (addr : address) (services : S) (status : GattStatus)
    : M (LoopFuture (S * GattStatus)) unit :=
  glib_callback (
    if negb (addr =? task_address) then ret tt
    else call_soon_threadsafe_set_result (services, status)).

(** [props_has_uuids] is [floss_enums.BtPropertyType.Uuids in props]. *)
Definition DiscoverySDPObserver_on_device_properties_changed
    (remote_device_address : address) (props_has_uuids : bool)
    : M (LoopFuture unit) unit :=
  glib_callback (
    if negb (remote_device_address =? task_address) then ret tt
    else if props_has_uuids then call_soon_threadsafe_set_result tt
    else ret tt).

Definition ClearCacheObserver_on_connection_updated
    (addr : address) (interval latency timeout : Z) (status : GattStatus)
    : M (LoopFuture GattStatus) unit :=
  glib_callback (
    if negb (addr =? task_address) then ret tt
    else call_soon_threadsafe_set_result status).
End Callbacks.

(** ** ExchangeMTU *)

Record ExchangeMTURequest := { mtu_connection : address; mtu : Z }.

Record ExchangeMTU_env := { env_configure_mtu : awaited GattStatus }.

Definition ExchangeMTU (env : ExchangeMTU_env) (request : ExchangeMTURequest) : M frame unit :=
  let address_ := mtu_connection request in
  try_finally
    (o <- new_observer MTUChangeObserver ;;
     assign (set_observer o) ;;
     assign (set_name (create_observer_name o)) ;;
     call (register_callback_observer gatt_client (create_observer_name o) o) ;;
     call (configure_mtu address_ (mtu request)) ;;
     status <- await None (env_configure_mtu env) ;;
     if negb (GattStatus_eqb status SUCCESS) then raise (RuntimeError Failed_to_configure_MTU)
     else ret tt)
    (unregister_name_observer gatt_client) ;;
  ret tt.

(** ** WriteAttFromHandle *)

(** The locals of [WriteAttFromHandle] read by its [finally] block or after
    it. *)
Record Write_frame := {
  observers : list (observer_name * Observer);
  valid_handle : bool;
  status : local GattStatus;
  handle : local Z }.

Definition observers_append (n : observer_name) (o : Observer) (l : Write_frame) :=
  {| observers := observers l ++ [(n, o)]; valid_handle := valid_handle l;
     status := status l; handle := handle l |}.

Record Write_env := {
  env_characteristics : awaited GattStatus;
  env_descriptors : awaited GattStatus;
  env_write_attribute : awaited (GattStatus * Z) }.

Definition WriteAttFromHandle (env : Write_env) (request : WriteRequest) : M Write_frame WriteResponse :=
  let address_ := wr_connection request in
  assign (fun _ => {| observers := []; valid_handle := true; status := Unbound; handle := Unbound |}) ;;
  try_finally
    (o <- new_observer WriteAttObserver ;;
     call (register_callback_observer gatt_client (create_observer_name o) o) ;;
     assign (observers_append (create_observer_name o) o) ;;
     o <- new_observer ReadCharacteristicFromHandleObserver ;;
     call (register_callback_observer gatt_client (create_observer_name o) o) ;;
     assign (observers_append (create_observer_name o) o) ;;
     call (read_characteristic address_ (wr_handle request) AUTHENTICATION_NONE) ;;
     char_status <- await None (env_characteristics env) ;;
     (if negb (GattStatus_eqb char_status SUCCESS) then
        o <- new_observer ReadCharacteristicDescriptorFromHandleObserver ;;
        call (register_callback_observer gatt_client (create_observer_name o) o) ;;
        assign (observers_append (create_observer_name o) o) ;;
        call (read_descriptor address_ (wr_handle request) AUTHENTICATION_NONE) ;;
        desc_status <- await None (env_descriptors env) ;;
        if negb (GattStatus_eqb desc_status SUCCESS) then
          assign (fun l => {| observers := observers l; valid_handle := false;
                              status := status l; handle := handle l |})
        else call (write_descriptor address_ (wr_handle request) AUTHENTICATION_NONE
                     (wr_value request))
      else call (write_characteristic address_ (wr_handle request) WRITE_TYPE_DEFAULT
                   AUTHENTICATION_NONE (wr_value request))) ;;
     l <- locals ;;
     if valid_handle l then
       sh <- await None (env_write_attribute env) ;;
       assign (fun l => {| observers := observers l; valid_handle := valid_handle l;
                           status := Bound (fst sh); handle := Bound (snd sh) |})
     else ret tt)
    (l <- locals ;;
     for_each (observers l) (fun no =>
       call (unregister_callback_observer gatt_client (fst no) (snd no)))) ;;
  l <- locals ;;
  if valid_handle l then
    h <- read "handle" handle ;;
    s <- read "status" status ;;
    ret {| wresp_handle := h; wresp_status := att_status s |}
  else ret {| wresp_handle := wr_handle request; wresp_status := INVALID_HANDLE |}.

(** ** DiscoverServiceByUuid, DiscoverServices *)

Definition DiscoverServiceByUuid (connection : address) (uuid : string) : M frame unit :=
  call (btif_gattc_discover_service_by_uuid connection uuid) ;;
  ret tt.

(** The dictionaries of a discovered service, and the messages built from
    them. A uuid is kept as the upper-case string it prints as. *)
#[local] Set Warnings "-register-all".
Inductive descriptor_dict :=
  Descriptor (instance_id permissions : Z) (uuid : string).
Inductive characteristic_dict :=
  Characteristic (properties permissions : Z) (uuid : string) (instance_id : Z)
                 (descriptors : list descriptor_dict).
Inductive service_dict :=
  Service (instance_id service_type : Z) (uuid : string)
          (included_services : list service_dict)
          (characteristics : list characteristic_dict).

Inductive GattCharacteristicDescriptor :=
  GattCharacteristicDescriptor_ (handle permissions : Z) (uuid : string).
Inductive GattCharacteristic :=
  GattCharacteristic_ (properties permissions : Z) (uuid : string) (handle : Z)
                      (descriptors : list GattCharacteristicDescriptor).
Inductive GattService :=
  GattService_ (handle type : Z) (uuid : string)
               (included_services : list GattService)
               (characteristics : list GattCharacteristic).

Definition create_gatt_characteristic_descriptor (d : descriptor_dict) :=
  match d with
  | Descriptor instance_id permissions uuid =>
      GattCharacteristicDescriptor_ instance_id permissions uuid
  end.

Definition create_gatt_characteristic (c : characteristic_dict) :=
  match c with
  | Characteristic properties permissions uuid instance_id descriptors =>
      GattCharacteristic_ properties permissions uuid instance_id
        (map create_gatt_characteristic_descriptor descriptors)
  end.

Fixpoint create_gatt_service (s : service_dict) : GattService :=
  match s with
  | Service instance_id service_type uuid included_services characteristics =>
      GattService_ instance_id service_type uuid
        (map create_gatt_service included_services)
        (map create_gatt_characteristic characteristics)
  end.

Record DiscoverServices_env := {
  env_search_services : awaited (list service_dict * GattStatus) }.

Definition DiscoverServices (env : DiscoverServices_env) (connection : address)
    : M frame (list GattService) :=
  let address_ := connection in
  try_finally
    (o <- new_observer DiscoverServices_DiscoveryObserver ;;
     assign (set_observer o) ;;
     assign (set_name (create_observer_name o)) ;;
     call (register_callback_observer gatt_client (create_observer_name o) o) ;;
     call (discover_services address_) ;;
     r <- await None (env_search_services env) ;;
     let '(services, status) := r in
     if negb (GattStatus_eqb status SUCCESS) then raise (RuntimeError Failed_to_find_services)
     else ret (map create_gatt_service services))
    (unregister_name_observer gatt_client).

(** ** DiscoverServicesSdp *)

Record DiscoverServicesSdp_env := {
  env_remote_uuids : option (list string);
  env_bond_state_first : BondState;
  env_bond_state_second : BondState;
  env_fetch_remote : bool;
  env_device_uuids_changed : awaited unit;
  env_remote_uuids_fetched : option (list string) }.

(** [(uuids is None or len(uuids)) == 0]: the parenthesis is [True] for
    [None], and [True == 0] is false; otherwise it is the length. *)
Definition uuids_none_or_len_is_zero (uuids : option (list string)) : bool :=
  match uuids with
  | None => false
  | Some l => Nat.eqb (List.length l) 0
  end.

Definition DiscoverServicesSdp (env : DiscoverServicesSdp_env) (request_address : address)
    : M frame DiscoverServicesSdpResponse :=
  let address_ := request_address in
  try_finally
    (let uuids := env_remote_uuids env in
     if BondState_eqb (env_bond_state_first env) BONDING && uuids_none_or_len_is_zero uuids then
       ret {| service_uuids := [] |}
     else
       uuids <-
         (if negb (BondState_eqb (env_bond_state_second env) BONDING) then
            o <- new_observer DiscoverySDPObserver ;;
            assign (set_observer o) ;;
            assign (set_name (create_observer_name o)) ;;
            call (register_callback_observer adapter_client (create_observer_name o) o) ;;
            call (fetch_remote address_) ;;
            (if negb (env_fetch_remote env) then
               raise (RuntimeError (Failed_to_fetch_remote_device_uuids address_))
             else ret tt) ;;
            _ <- await None (env_device_uuids_changed env) ;;
            ret (env_remote_uuids_fetched env)
          else ret uuids) ;;
       ret {| service_uuids := match uuids with Some l => l | None => [] end |})
    (unregister_name_observer adapter_client).

(** ** ClearCache *)

Record ClearCache_env := { env_refresh : awaited GattStatus }.

Definition ClearCache (env : ClearCache_env) (connection : address) : M frame unit :=
  let address_ := connection in
  try_finally
    (o <- new_observer ClearCacheObserver ;;
     assign (set_observer o) ;;
     assign (set_name (create_observer_name o)) ;;
     call (register_callback_observer gatt_client (create_observer_name o) o) ;;
     call (refresh_device address_) ;;
     status <- await None (env_refresh env) ;;
     if negb (GattStatus_eqb status SUCCESS) then raise (RuntimeError Failed_to_clear_cache)
     else ret tt)
    (unregister_name_observer gatt_client) ;;
  ret tt.

End GATTService.


(** * Reading a list of calls *)

Definition is_register (a : action) : bool :=
  match a with register_callback_observer _ _ _ => true | _ => false end.
Definition is_unregister (a : action) : bool :=
  match a with unregister_callback_observer _ _ _ => true | _ => false end.
Definition is_connect_all_enabled_profiles (a : action) : bool :=
  match a with connect_all_enabled_profiles _ => true | _ => false end.
Definition is_start_advertising_set (a : action) : bool :=
  match a with start_advertising_set _ _ => true | _ => false end.
Definition is_stop_advertising_set (a : action) : bool :=
  match a with stop_advertising_set _ => true | _ => false end.
Definition is_start_scan (a : action) : bool :=
  match a with start_scan _ => true | _ => false end.
Definition is_stop_scan (a : action) : bool :=
  match a with stop_scan _ => true | _ => false end.
Definition is_start_discovery (a : action) : bool :=
  match a with start_discovery => true | _ => false end.
Definition is_stop_discovery (a : action) : bool :=
  match a with stop_discovery => true | _ => false end.

(** The number of calls of a kind among [t]. *)
Definition count (kind : action -> bool) (t : list action) : nat :=
  List.length (filter kind t).
Arguments count : simpl never.

(** * Notions used in the statements *)

(** The world before the first call. *)
Definition w0 : world := {| trace := []; objects := 0 |}.

(** The register calls and the unregister calls of a run that has ended
    are equal in number. *)
Definition balanced {L A} (r : outcome A * L * world) : Prop :=
  ended (result_of r) = true ->
  count is_register (calls_of r) = count is_unregister (calls_of r).

(** The requests a service object goes through, as far as they touch
    [self]: each handler is run from the service object the previous one
    left. *)
Inductive host_rpc :=
| rpc_FactoryReset
| rpc_Reset
| rpc_Connect (env : HostService.Connect_env) (request : HostService.ConnectRequest)
| rpc_WaitConnection (env : HostService.WaitConnection_env)
                     (request : HostService.WaitConnectionRequest)
| rpc_WaitDisconnection (env : HostService.WaitDisconnection_env)
                        (request : HostService.WaitDisconnectionRequest).

Definition self_after (s : HostService.HostService) (r : host_rpc) : HostService.HostService :=
  let enter := HostService.enter s in
  match r with
  | rpc_FactoryReset => HostService.self (locals_of (run HostService.FactoryReset enter))
  | rpc_Reset => HostService.self (locals_of (run HostService.Reset enter))
  | rpc_Connect env request =>
      HostService.self (locals_of (run (HostService.Connect env request) enter))
  | rpc_WaitConnection env request =>
      HostService.self (locals_of (run (HostService.WaitConnection env request) enter))
  | rpc_WaitDisconnection env request =>
      HostService.self (locals_of (run (HostService.WaitDisconnection env request) enter))
  end.

(** The service object after [__init__] and the requests [rs]. *)
Definition service_after (rs : list host_rpc) : HostService.HostService :=
  fold_left self_after rs HostService.__init__.

(** The observer of a [WaitConnection] that waits, the two calls of such
    a call once its wait has ended, and its locals. *)
Definition wait_observer : Observer :=
  {| obs_class := WaitConnection_ConnectionObserver; obs_id := 0 |}.

Definition wait_calls : list action :=
  [ register_callback_observer adapter_client (create_observer_name wait_observer) wait_observer;
    unregister_callback_observer adapter_client (create_observer_name wait_observer) wait_observer ].

Definition wait_frame (s : HostService.HostService) : HostService.frame :=
  {| HostService.self := s;
     HostService.name := Bound (create_observer_name wait_observer);
     HostService.observer := Bound wait_observer |}.

(** The observer of [ExchangeMTU], its locals once the observer is
    created, and its register and unregister calls. *)
Definition mtu_observer : Observer := {| obs_class := MTUChangeObserver; obs_id := 0 |}.

Definition mtu_frame : GATTService.frame :=
  {| GATTService.name := Bound (create_observer_name mtu_observer);
     GATTService.observer := Bound mtu_observer |}.

Definition mtu_register : action :=
  register_callback_observer gatt_client (create_observer_name mtu_observer) mtu_observer.
Definition mtu_unregister : action :=
  unregister_callback_observer gatt_client (create_observer_name mtu_observer) mtu_observer.

(** The [i]-th observer [WriteAttFromHandle] creates, of class [c], as the
    entry of [observers], and the calls that register and unregister it. *)
Definition write_observer (c : observer_class) (i : nat) : observer_name * Observer :=
  (create_observer_name {| obs_class := c; obs_id := i |}, {| obs_class := c; obs_id := i |}).

Definition write_register (no : observer_name * Observer) : action :=
  register_callback_observer gatt_client (fst no) (snd no).
Definition write_unregister (no : observer_name * Observer) : action :=
  unregister_callback_observer gatt_client (fst no) (snd no).



(** The two unregister calls issued for one entry of [observers]. *)
Definition Advertise_unregisters (no : observer_name * Observer) : list action :=
  [ unregister_callback_observer adapter_client (fst no) (snd no);
    unregister_callback_observer advertising_client (fst no) (snd no) ].

(** The name and the observer of each register call among [t], in the
    order of the calls, whichever client the call is made on. *)
Definition registered (t : list action) : list (observer_name * Observer) :=
  flat_map (fun a =>
              match a with
              | register_callback_observer _ n o => [(n, o)]
              | _ => []
              end) t.
Arguments registered : simpl never.

(** What holds of the locals and the calls whenever the loop is entered:
    one register call per entry of [observers], one
    [start_advertising_set] per entry of [started_ids], and neither an
    unregister nor a stop call yet. With [pending_start = 1] one more
    [start_advertising_set] has been issued than [started_ids] has
    entries. *)
Definition Advertise_inv (pending_start : nat) (l : HostService.Advertise_frame) (w : world)
    : Prop :=
  count is_register (trace w) = List.length (HostService.observers l)
  /\ count is_unregister (trace w) = 0
  /\ count is_stop_advertising_set (trace w) = 0
  /\ count is_start_advertising_set (trace w)
     = List.length (HostService.started_ids l) + pending_start.

(** More kinds of calls. *)
Definition is_connect_device (a : action) : bool :=
  match a with connect_device _ => true | _ => false end.
Definition is_create_bond (a : action) : bool :=
  match a with create_bond _ => true | _ => false end.
Definition is_read_characteristic (a : action) : bool :=
  match a with read_characteristic _ _ _ => true | _ => false end.
Definition is_read_descriptor (a : action) : bool :=
  match a with read_descriptor _ _ _ => true | _ => false end.
Definition is_write_characteristic (a : action) : bool :=
  match a with write_characteristic _ _ _ _ _ => true | _ => false end.
Definition is_write_descriptor (a : action) : bool :=
  match a with write_descriptor _ _ _ _ => true | _ => false end.

(** What a run has yielded, in order. *)
Definition yields (t : list action) : list streamed :=
  flat_map (fun a => match a with yield_ r => [r] | _ => [] end) t.

(** The observer of [Connect], its locals once the observer is created,
    and its register and unregister calls. *)
Definition pairing_observer : Observer := {| obs_class := PairingObserver; obs_id := 0 |}.

Definition pairing_frame (s : HostService.HostService) : HostService.frame :=
  {| HostService.self := s;
     HostService.name := Bound (create_observer_name pairing_observer);
     HostService.observer := Bound pairing_observer |}.

Definition pairing_register : action :=
  register_callback_observer adapter_client (create_observer_name pairing_observer)
    pairing_observer.
Definition pairing_unregister : action :=
  unregister_callback_observer adapter_client (create_observer_name pairing_observer)
    pairing_observer.

(** The ways a streaming handler is found: still suspended, cancelled at
    an await, timed out in a bounded wait, or closed by its consumer at a
    [yield]. *)
Definition suspended_or_interrupted {A} (o : outcome A) : Prop :=
  o = Blocked \/ o = Exc CancelledError \/ o = Exc TimeoutError \/ o = Exc GeneratorExit.

(** A result of the [connect_device] future is consistent when it is a
    success without a reason or a failure with one. *)
Definition consistent (f : Future HostService.connect_result) : Prop :=
  match f with
  | Pending => True
  | Done (success, reason) => success = true <-> reason = None
  end.

(** The future of a [PairingObserver] after the events [evs]. *)
Definition future_after (task_address : address)
    (evs : list (HostService.adapter_state * HostService.pairing_event))
    (f : Future HostService.connect_result) (w : world) : Future HostService.connect_result :=
  snd (fst (HostService.deliver task_address evs f w)).

(** The scan results the loop of Scan takes from its queue, in order: the
    loop goes on while a result arrives and the consumer asks for the next
    response. *)
Fixpoint Scan_consumed (turns : list HostService.Scan_turn) : list scan_result :=
  match turns with
  | [] => []
  | t :: rest =>
      match HostService.turn_scan_result t with
      | Resolved r =>
          r :: match HostService.turn_scan_consumer t with
               | Next => Scan_consumed rest
               | _ => []
               end
      | _ => []
      end
  end.

(** The addresses the loop of Inquiry takes from its queue, in order. *)
Fixpoint Inquiry_consumed (turns : list HostService.Inquiry_turn) : list address :=
  match turns with
  | [] => []
  | t :: rest =>
      match HostService.turn_device_found t with
      | Resolved a =>
          a :: match HostService.turn_inquiry_consumer t with
               | Next => Inquiry_consumed rest
               | _ => []
               end
      | _ => []
      end
  end.

(** The addresses the loop of a connectable Advertise takes from its
    queue of connections, in order. A turn whose advertising set is not
    reported ends the loop before the queue is read. *)
Fixpoint Advertise_accepted (turns : list HostService.Advertise_turn) : list address :=
  match turns with
  | [] => []
  | t :: rest =>
      let reads_queue :=
        if HostService.turn_active_advs t then true
        else match HostService.turn_start_advertising t with
             | Resolved _ => true
             | _ => false
             end in
      if reads_queue then
        match HostService.turn_connection t with
        | Resolved a =>
            a :: match HostService.turn_consumer t, HostService.turn_restart_sleep t with
                 | Next, Woke => Advertise_accepted rest
                 | _, _ => []
                 end
        | _ => []
        end
      else []
  end.

(** The instance ids of a discovered service, of its included services
    at every depth, and of its characteristics and their descriptors, in
    the order of the dictionaries; and the handles of a [GattService]
    message in the same order. *)
Definition descriptor_ids (d : GATTService.descriptor_dict) : list Z :=
  match d with GATTService.Descriptor i _ _ => [i] end.

Definition characteristic_ids (c : GATTService.characteristic_dict) : list Z :=
  match c with
  | GATTService.Characteristic _ _ _ i descriptors => i :: flat_map descriptor_ids descriptors
  end.

Fixpoint service_ids (s : GATTService.service_dict) : list Z :=
  match s with
  | GATTService.Service i _ _ included characteristics =>
      i :: flat_map service_ids included ++ flat_map characteristic_ids characteristics
  end.

Definition descriptor_handles (d : GATTService.GattCharacteristicDescriptor) : list Z :=
  match d with GATTService.GattCharacteristicDescriptor_ h _ _ => [h] end.

Definition characteristic_handles (c : GATTService.GattCharacteristic) : list Z :=
  match c with
  | GATTService.GattCharacteristic_ _ _ _ h descriptors =>
      h :: flat_map descriptor_handles descriptors
  end.

Fixpoint service_handles (s : GATTService.GattService) : list Z :=
  match s with
  | GATTService.GattService_ h _ _ included characteristics =>
      h :: flat_map service_handles included ++ flat_map characteristic_handles characteristics
  end.

(** An [on_configure_mtu] event: address, mtu and status. *)
Definition configure_mtu_event := (address * Z * GattStatus)%type.

(** The events delivered one after the other to an [MTUChangeObserver]. *)
Fixpoint deliver_configure_mtu (task_address : address) (evs : list configure_mtu_event)
    (lf : LoopFuture GattStatus) (w : world) : LoopFuture GattStatus * world :=
  match evs with
  | [] => (lf, w)
  | (a, m, st) :: rest =>
      let r := GATTService.MTUChangeObserver_on_configure_mtu task_address a m st lf w in
      deliver_configure_mtu task_address rest (locals_of r) (snd r)
  end.

(** The [configure_mtu] future once the loop has run what the callbacks
    handed to it. *)
Definition configure_mtu_future (task_address : address) (evs : list configure_mtu_event)
    : Future GattStatus :=
  let lf := fst (deliver_configure_mtu task_address evs {| fut := Pending; ready := [] |} w0) in
  fst (run_ready (fut lf) (ready lf)).

(** The observers of [DiscoverServices], [DiscoverServicesSdp] and
    [ClearCache]. *)
Definition discovery_observer : Observer :=
  {| obs_class := DiscoverServices_DiscoveryObserver; obs_id := 0 |}.
Definition sdp_observer : Observer := {| obs_class := DiscoverySDPObserver; obs_id := 0 |}.
Definition cache_observer : Observer := {| obs_class := ClearCacheObserver; obs_id := 0 |}.

(** The register and unregister calls of an observer. *)
Definition register_on (c : client) (o : Observer) : action :=
  register_callback_observer c (create_observer_name o) o.
Definition unregister_on (c : client) (o : Observer) : action :=
  unregister_callback_observer c (create_observer_name o) o.

(** * Concrete inputs *)

Definition addr_A : address := "AA:BB:CC:DD:EE:FF".
Definition addr_B : address := "11:22:33:44:55:66".

(** An adapter client that gives the same answers for every address. *)
Definition adapter (connected bonded profiles_ok : bool) : HostService.adapter_state :=
  {| HostService.is_connected := fun _ => connected;
     HostService.is_bonded := fun _ => bonded;
     HostService.connect_all_enabled_profiles_ok := fun _ => profiles_ok |}.

(** [DiscoverServicesSdp] for a device that is bonding. *)
Definition sdp_env (uuids : option (list string)) : GATTService.DiscoverServicesSdp_env :=
  {| GATTService.env_remote_uuids := uuids;
     GATTService.env_bond_state_first := BONDING;
     GATTService.env_bond_state_second := BONDING;
     GATTService.env_fetch_remote := true;
     GATTService.env_device_uuids_changed := Resolved tt;
     GATTService.env_remote_uuids_fetched := uuids |}.

(** A write to handle 42, with the statuses of the two reads. *)
Definition write_request : WriteRequest :=
  {| wr_connection := addr_A; wr_handle := 42; wr_value := "value" |}.

Definition write_env (c d : GattStatus) : GATTService.Write_env :=
  {| GATTService.env_characteristics := Resolved c;
     GATTService.env_descriptors := Resolved d;
     GATTService.env_write_attribute := Resolved (SUCCESS, 42%Z) |}.

Definition write_frame0 : GATTService.Write_frame :=
  {| GATTService.observers := []; GATTService.valid_handle := true;
     GATTService.status := Unbound; GATTService.handle := Unbound |}.

(** Two scan results. *)
Definition scan_result_1 : scan_result :=
  {| sr_tx_power := 0; sr_rssi := -60; sr_advertising_sid := 1; sr_periodic_adv_int := 0;
     sr_primary_phy := PHY1M; sr_secondary_phy := LePhy_INVALID;
     sr_address := addr_A; sr_addr_type := BLE_ADDR_PUBLIC; sr_flags := 2 |}.

Definition scan_result_2 : scan_result :=
  {| sr_tx_power := 0; sr_rssi := -70; sr_advertising_sid := 1; sr_periodic_adv_int := 0;
     sr_primary_phy := PHY_CODED; sr_secondary_phy := PHY2M;
     sr_address := addr_B; sr_addr_type := BLE_ADDR_RANDOM; sr_flags := 1 |}.

(** A non-connectable advertisement, and a turn of its loop in which no
    advertising set is active. *)
Definition advertise_once : AdvertiseRequest :=
  {| req_connectable := false; req_interval := 100;
     req_primary_phy := Some PRIMARY_1M; req_secondary_phy := Some SECONDARY_1M;
     req_own_address_type := Some PUBLIC; req_data := "data" |}.

Definition advertise_turn (start : awaited (option Z)) (idle : slept) : HostService.Advertise_turn :=
  {| HostService.turn_active_advs := false;
     HostService.turn_start_advertising := start;
     HostService.turn_idle_sleep := idle;
     HostService.turn_connection := NoEvent;
     HostService.turn_consumer := Next;
     HostService.turn_restart_sleep := Woke |}.

Definition advertise_frame0 : HostService.Advertise_frame :=
  {| HostService.started_ids := []; HostService.observers := [] |}.

Definition advertising_observer0 : Observer :=
  {| obs_class := AdvertisingObserver; obs_id := 0 |}.

(** * Properties of the callbacks *)

Lemma string_eqb_neq (a b : string) : a <> b -> (a =? b) = false.
Proof. intro H. apply String.eqb_neq. exact H. Qed.

(** C3. [PairingObserver.on_bond_state_changed], called for the requested
    address while the [connect_device] future is pending:
    - a non-zero status resolves the future with a failure and issues no
      call at all, so no [connect_all_enabled_profiles];
    - status zero and state [BONDED] with the device connected resolves
      the future with success;
    - status zero and state [BONDED] with the device not connected issues
      [connect_all_enabled_profiles]; if that call fails the future is
      resolved with a failure in the same callback, and if it succeeds the
      future stays pending. *)
Theorem on_bond_state_changed_transitions :
  forall (client : HostService.adapter_state) (task_address a : address)
         (status : Z) (state : BondState) (w : world),
    a = task_address ->
    let cb := HostService.PairingObserver_on_bond_state_changed
                client task_address status a state in
    let w_connect_all :=
      {| trace := trace w ++ [connect_all_enabled_profiles task_address];
         objects := objects w |} in
    (status <> 0%Z ->
       cb Pending w = (Ok tt, Done (false, Some (failed_to_bond a status state)), w))
    /\ (status = 0%Z -> state = BONDED ->
        HostService.is_connected client task_address = true ->
        cb Pending w = (Ok tt, Done (true, None), w))
    /\ (status = 0%Z -> state = BONDED ->
        HostService.is_connected client task_address = false ->
        HostService.connect_all_enabled_profiles_ok client task_address = false ->
        cb Pending w =
          (Ok tt,
           Done (false, Some (failed_on_connect_all_enabled_profiles task_address)),
           w_connect_all))
    /\ (status = 0%Z -> state = BONDED ->
        HostService.is_connected client task_address = false ->
        HostService.connect_all_enabled_profiles_ok client task_address = true ->
        cb Pending w = (Ok tt, Pending, w_connect_all)).
Proof.
  intros client task_address a status state w Hkey cb w_connect_all.
  subst a cb w_connect_all.
  unfold HostService.PairingObserver_on_bond_state_changed.
  rewrite String.eqb_refl. cbn [negb].
  repeat split.
  - intro Hs. apply Z.eqb_neq in Hs. rewrite Hs. reflexivity.
  - intros Hs Hst Hc. subst. cbn. rewrite Hc. reflexivity.
  - intros Hs Hst Hc Hp. subst. cbn. rewrite Hc. cbn.
    unfold bind, call. rewrite Hp. reflexivity.
  - intros Hs Hst Hc Hp. subst. cbn. rewrite Hc. cbn.
    unfold bind, call. rewrite Hp. reflexivity.
Qed.

Lemma on_bond_state_changed_transitions_witness :
  HostService.PairingObserver_on_bond_state_changed
    (adapter false false false) addr_A 0 addr_A BONDED Pending w0
  = (Ok tt, Done (false, Some (failed_on_connect_all_enabled_profiles addr_A)),
     {| trace := [connect_all_enabled_profiles addr_A]; objects := 0 |}).
Proof.
  pose proof (on_bond_state_changed_transitions
                (adapter false false false) addr_A addr_A 0 BONDED w0 eq_refl) as H.
  cbv zeta in H.
  destruct H as (_ & _ & H & _).
  exact (H eq_refl eq_refl eq_refl eq_refl).
Defined.

(** Scenario: the device is neither connected nor bonded, [Connect] calls
    [create_bond], and [on_bond_state_changed] reports a non-zero status.
    The future is resolved with a failure without any call on the stack,
    and the handler, awaiting that future, raises [RuntimeError] after
    unregistering its observer. *)
Example Connect_bond_failure :
  let '(outs, f, w) :=
    HostService.deliver addr_A
      [(adapter false false true, HostService.bond_state_changed 5 addr_A (BondState_value 0))]
      Pending w0 in
  let r := run (HostService.Connect
                  {| HostService.env_is_connected := false;
                     HostService.env_is_bonded := false;
                     HostService.env_create_bond := true;
                     HostService.env_connect_device := awaited_of f |}
                  {| HostService.connect_address := addr_A |})
               (HostService.enter HostService.__init__) in
  outs = [Ok tt]
  /\ count is_connect_all_enabled_profiles (trace w) = 0
  /\ result_of r =
     Exc (RuntimeError
            (Failed_to_connect addr_A (Some (failed_to_bond addr_A 5 (BondState_value 0)))))
  /\ calls_of r =
     [ register_callback_observer adapter_client
         (create_observer_name {| obs_class := PairingObserver; obs_id := 0 |})
         {| obs_class := PairingObserver; obs_id := 0 |};
       create_bond addr_A;
       unregister_callback_observer adapter_client
         (create_observer_name {| obs_class := PairingObserver; obs_id := 0 |})
         {| obs_class := PairingObserver; obs_id := 0 |} ].
Proof. cbv. repeat split; reflexivity. Qed.

(** [set_result] on a future that is done raises and leaves the result. *)
Lemma set_result_done {V} (v v' : V) (w : world) :
  set_result v' (Done v) w = (Exc InvalidStateError, Done v, w).
Proof. reflexivity. Qed.

(** A callback of [PairingObserver] that finds the future done leaves its
    result, and either returns or raises [InvalidStateError]. *)
Ltac finish := cbn; do 2 eexists; split; [reflexivity | auto].

Lemma PairingObserver_callback_done client task_address ev (v : HostService.connect_result) w :
  exists o w',
    HostService.PairingObserver_callback client task_address ev (Done v) w = (o, Done v, w')
    /\ (o = Ok tt \/ o = Exc InvalidStateError).
Proof.
  destruct ev as [status a state | remote cod variant passkey | err result | remote]; cbn.
  - unfold HostService.PairingObserver_on_bond_state_changed.
    destruct (negb (a =? task_address)); [finish |].
    destruct (negb (status =? 0)%Z); [finish |].
    destruct (BondState_eqb state BONDED); [| finish].
    destruct (negb (HostService.is_connected client task_address)); [| finish].
    unfold bind, call.
    destruct (negb (HostService.connect_all_enabled_profiles_ok client task_address)); cbn; finish.
  - unfold HostService.PairingObserver_on_ssp_request.
    destruct (negb (fst remote =? task_address)); [finish |].
    destruct (SspVariant_eqb variant CONSENT); cbn; finish.
  - unfold HostService.PairingObserver_on_set_pairing_confirmation.
    destruct (HostService.truthy err || negb result); finish.
  - unfold HostService.PairingObserver_on_device_connected.
    destruct (negb (fst remote =? task_address)); [finish |].
    destruct (HostService.is_bonded client (fst remote)); finish.
Qed.

Lemma deliver_done task_address evs (v : HostService.connect_result) w :
  exists outs w',
    HostService.deliver task_address evs (Done v) w = (outs, Done v, w')
    /\ Forall (fun o => o = Ok tt \/ o = Exc InvalidStateError) outs.
Proof.
  revert w. induction evs as [| [client ev] rest IH]; intro w; cbn.
  - exists [], w. split; [reflexivity | constructor].
  - destruct (PairingObserver_callback_done client task_address ev v w) as (o & w1 & E & Ho).
    rewrite E.
    destruct (IH w1) as (outs & w2 & E2 & Houts).
    rewrite E2. exists (o :: outs), w2. split; [reflexivity | constructor; assumption].
Qed.

Lemma deliver_app task_address evs1 evs2 f w :
  HostService.deliver task_address (evs1 ++ evs2) f w =
  let '(o1, f1, w1) := HostService.deliver task_address evs1 f w in
  let '(o2, f2, w2) := HostService.deliver task_address evs2 f1 w1 in
  (o1 ++ o2, f2, w2).
Proof.
  revert f w. induction evs1 as [| [client ev] rest IH]; intros f w; cbn.
  - destruct (HostService.deliver task_address evs2 f w) as [[o2 f2] w2]. reflexivity.
  - destruct (HostService.PairingObserver_callback client task_address ev f w) as [[o f'] w'].
    rewrite IH.
    destruct (HostService.deliver task_address rest f' w') as [[o1 f1] w1].
    destruct (HostService.deliver task_address evs2 f1 w1) as [[o2 f2] w2].
    reflexivity.
Qed.

Lemma run_ready_done {V} (v : V) (handles : list V) :
  run_ready (Done v) handles = (Done v, List.length handles).
Proof.
  induction handles as [| h rest IH]; cbn; [reflexivity |].
  rewrite IH. reflexivity.
Qed.

(** C1, the claim as stated fails: [on_bond_state_changed] resolves the
    [connect_device] future of [Connect], and the [on_device_connected] that
    arrives next for the same, bonded device calls [set_result] again, which
    raises [InvalidStateError]. *)
Lemma later_matching_event_raises :
  HostService.deliver addr_A
    [ (adapter true true true, HostService.bond_state_changed 0 addr_A BONDED);
      (adapter true true true, HostService.device_connected (addr_A, "peer")) ]
    Pending w0
  = ([Ok tt; Exc InvalidStateError], Done (true, None), w0).
Proof. reflexivity. Qed.

(** The loop keeps the result it has: handles added after the ones that
    gave the future the result [v] raise and leave [v]. *)
Lemma run_ready_app {V} (f : Future V) (handles later : list V) (v : V) :
  fst (run_ready f handles) = Done v ->
  run_ready f (handles ++ later)
  = (Done v, snd (run_ready f handles) + List.length later).
Proof.
  revert f. induction handles as [| h rest IH]; intros f H.
  - cbn in H. subst f. cbn. apply run_ready_done.
  - destruct f as [| v0].
    + cbn in *. apply IH. exact H.
    + cbn in *. destruct (run_ready (Done v0) rest) as [f' n] eqn:E.
      cbn in H. subst f'.
      rewrite (IH (Done v0)) by (rewrite E; reflexivity).
      rewrite E. reflexivity.
Qed.

(** C1, amended. The first [set_result] determines the result, and no
    later event changes it; a later matching event is not a no-op:
    - [PairingObserver]: once the future is done with [v] it stays done with
      [v] whatever events follow, and each callback returns or raises
      [InvalidStateError]; an event that resolves the pending future fixes
      the result for every continuation of the sequence;
    - the other callbacks of host.py that resolve a future raise
      [InvalidStateError] on a matching event when the future is done;
    - the loop of a future of gatt.py: the first handle sets the result and
      every later handle raises inside the loop without changing it;
    - a callback of [PairingObserver] that reaches [set_result] on the done
      future raises [InvalidStateError]: [on_bond_state_changed] with a
      failure status or for the bonded and connected device,
      [on_set_pairing_confirmation] for a failed confirmation,
      [on_device_connected] for the bonded device;
    - [on_bond_state_changed] for the bonded device that is not connected
      issues [connect_all_enabled_profiles] though the future is done, and
      raises after the call when the call fails; [on_ssp_request] with the
      consent variant issues [set_pairing_confirmation];
    - every callback of gatt.py, on an event for the address of its task,
      returns, leaves the future as it is and hands one [set_result] with
      the value of the event to the loop (the callback of
      [DiscoverServicesSdp] when the properties hold the uuids);
    - handles handed to the loop after the future got its result [v] leave
      [v] and raise inside the loop, one by one. *)
Theorem first_resolution_wins :
  (forall task_address evs (v : HostService.connect_result) w,
      exists outs w',
        HostService.deliver task_address evs (Done v) w = (outs, Done v, w')
        /\ Forall (fun o => o = Ok tt \/ o = Exc InvalidStateError) outs)
  /\ (forall task_address pre client ev post (v : HostService.connect_result)
             w outs1 w1 w2,
         HostService.deliver task_address pre Pending w = (outs1, Pending, w1) ->
         HostService.PairingObserver_callback client task_address ev Pending w1
           = (Ok tt, Done v, w2) ->
         exists outs w',
           HostService.deliver task_address (pre ++ (client, ev) :: post) Pending w
             = (outs, Done v, w'))
  /\ (forall (a : address) (peer : string) (v : address) w,
         HostService.WaitConnection_on_device_connected a (a, peer) (Done v) w
           = (Exc InvalidStateError, Done v, w)
         /\ HostService.WaitDisconnection_on_device_disconnected a (a, peer) (Done v) w
           = (Exc InvalidStateError, Done v, w))
  /\ (forall (reg_id advertiser_id tx_power : Z) status (v : option Z) w,
         HostService.AdvertisingObserver_on_advertising_set_started
           reg_id reg_id advertiser_id tx_power status (Done v) w
           = (Exc InvalidStateError, Done v, w))
  /\ (forall (u : HostService.uuid) scanner_id status (v : option Z) q w,
         HostService.ScanObserver_on_scanner_registered u u scanner_id status
           {| HostService.register_scanner_future := Done v; HostService.scan_results := q |} w
           = (Exc InvalidStateError,
              {| HostService.register_scanner_future := Done v; HostService.scan_results := q |},
              w))
  /\ (forall (d : bool) (v : bool) w,
         HostService.DiscoveryObserver_on_discovering_changed d d (Done v) w
           = (Exc InvalidStateError, Done v, w))
  /\ (forall (V : Type) (v : V) (handles : list V),
         run_ready (Done v) handles = (Done v, List.length handles)
         /\ run_ready Pending (v :: handles) = (Done v, List.length handles))
  /\ (forall client (a : address) (peer : string) (v : HostService.connect_result) w,
         (forall status state,
             status <> 0%Z ->
             HostService.PairingObserver_on_bond_state_changed client a status a state (Done v) w
             = (Exc InvalidStateError, Done v, w))
         /\ (HostService.is_connected client a = true ->
             HostService.PairingObserver_on_bond_state_changed client a 0 a BONDED (Done v) w
             = (Exc InvalidStateError, Done v, w))
         /\ (forall err result,
             HostService.truthy err || negb result = true ->
             HostService.PairingObserver_on_set_pairing_confirmation err result (Done v) w
             = (Exc InvalidStateError, Done v, w))
         /\ (HostService.is_bonded client a = true ->
             HostService.PairingObserver_on_device_connected client a (a, peer) (Done v) w
             = (Exc InvalidStateError, Done v, w)))
  /\ (forall client (a : address) (peer : string) cod passkey
             (v : HostService.connect_result) w,
         (HostService.is_connected client a = false ->
          HostService.PairingObserver_on_bond_state_changed client a 0 a BONDED (Done v) w
          = ((if HostService.connect_all_enabled_profiles_ok client a then Ok tt
              else Exc InvalidStateError),
             Done v,
             {| trace := trace w ++ [connect_all_enabled_profiles a]; objects := objects w |}))
         /\ HostService.PairingObserver_on_ssp_request a (a, peer) cod CONSENT passkey (Done v) w
            = (Ok tt, Done v,
               {| trace := trace w ++ [set_pairing_confirmation a true];
                  objects := objects w |}))
  /\ (forall (a : address) (status : GattStatus) (handle m interval latency timeout : Z)
             (value : string) w,
         (forall lf,
             GATTService.MTUChangeObserver_on_configure_mtu a a m status lf w
             = (Ok tt, {| fut := fut lf; ready := ready lf ++ [status] |}, w))
         /\ (forall lf,
             GATTService.WriteAttObserver_on_characteristic_write a a status handle lf w
             = (Ok tt, {| fut := fut lf; ready := ready lf ++ [(status, handle)] |}, w))
         /\ (forall lf,
             GATTService.WriteAttObserver_on_descriptor_write a a status handle lf w
             = (Ok tt, {| fut := fut lf; ready := ready lf ++ [(status, handle)] |}, w))
         /\ (forall lf,
             GATTService.ReadCharacteristicFromHandleObserver_on_characteristic_read
               a a status handle value lf w
             = (Ok tt, {| fut := fut lf; ready := ready lf ++ [status] |}, w))
         /\ (forall lf,
             GATTService.ReadCharacteristicDescriptorFromHandleObserver_on_descriptor_read
               a a status handle value lf w
             = (Ok tt, {| fut := fut lf; ready := ready lf ++ [status] |}, w))
         /\ (forall (S : Type) (services : S) lf,
             GATTService.DiscoveryObserver_on_search_complete a a services status lf w
             = (Ok tt, {| fut := fut lf; ready := ready lf ++ [(services, status)] |}, w))
         /\ (forall lf,
             GATTService.DiscoverySDPObserver_on_device_properties_changed a a true lf w
             = (Ok tt, {| fut := fut lf; ready := ready lf ++ [tt] |}, w))
         /\ (forall lf,
             GATTService.ClearCacheObserver_on_connection_updated
               a a interval latency timeout status lf w
             = (Ok tt, {| fut := fut lf; ready := ready lf ++ [status] |}, w)))
  /\ (forall (V : Type) (lf : LoopFuture V) (later : list V) (v : V),
         fst (run_ready (fut lf) (ready lf)) = Done v ->
         run_ready (fut lf) (ready lf ++ later)
         = (Done v, snd (run_ready (fut lf) (ready lf)) + List.length later)).
Proof.
  split; [exact deliver_done |].
  split.
  { intros task_address pre client ev post v w outs1 w1 w2 Hpre Hev.
    rewrite deliver_app, Hpre. cbn. rewrite Hev.
    destruct (deliver_done task_address post v w2) as (outs & w' & E & _).
    rewrite E. eauto. }
  split.
  { intros a peer v w.
    unfold HostService.WaitConnection_on_device_connected,
      HostService.WaitDisconnection_on_device_disconnected.
    cbn [fst]. rewrite String.eqb_refl. split; reflexivity. }
  split.
  { intros reg_id advertiser_id tx_power status v w.
    unfold HostService.AdvertisingObserver_on_advertising_set_started.
    rewrite Z.eqb_refl. reflexivity. }
  split.
  { intros u scanner_id status v q w.
    unfold HostService.ScanObserver_on_scanner_registered.
    rewrite String.eqb_refl. reflexivity. }
  split.
  { intros d v w.
    unfold HostService.DiscoveryObserver_on_discovering_changed.
    rewrite Bool.eqb_reflx. reflexivity. }
  split.
  { intros V v handles. split.
    - apply run_ready_done.
    - cbn. apply run_ready_done. }
  split.
  { intros client a peer v w.
    unfold HostService.PairingObserver_on_bond_state_changed,
      HostService.PairingObserver_on_set_pairing_confirmation,
      HostService.PairingObserver_on_device_connected, glib_callback.
    cbn [fst]. rewrite String.eqb_refl. cbn [negb].
    split; [| split; [| split]].
    - intros status state Hs. apply Z.eqb_neq in Hs. rewrite Hs. reflexivity.
    - intro Hc. rewrite Hc. reflexivity.
    - intros err result H. rewrite H. reflexivity.
    - intro Hb. rewrite Hb. reflexivity. }
  split.
  { intros client a peer cod passkey v w.
    unfold HostService.PairingObserver_on_bond_state_changed,
      HostService.PairingObserver_on_ssp_request, glib_callback.
    cbn [fst]. rewrite String.eqb_refl. cbn [negb].
    split.
    - intro Hc. rewrite Hc. cbn.
      destruct (HostService.connect_all_enabled_profiles_ok client a); reflexivity.
    - reflexivity. }
  split.
  { intros a status handle m interval latency timeout value w.
    unfold GATTService.MTUChangeObserver_on_configure_mtu,
      GATTService.WriteAttObserver_on_characteristic_write,
      GATTService.WriteAttObserver_on_descriptor_write,
      GATTService.ReadCharacteristicFromHandleObserver_on_characteristic_read,
      GATTService.ReadCharacteristicDescriptorFromHandleObserver_on_descriptor_read,
      GATTService.DiscoveryObserver_on_search_complete,
      GATTService.DiscoverySDPObserver_on_device_properties_changed,
      GATTService.ClearCacheObserver_on_connection_updated, glib_callback.
    rewrite String.eqb_refl. cbn [negb].
    repeat split; reflexivity. }
  intros V lf later v H. apply run_ready_app. exact H.
Qed.

Lemma first_resolution_wins_witness :
  exists outs w',
    HostService.deliver addr_A
      ([] ++ (adapter true true true, HostService.bond_state_changed 0 addr_A BONDED)
          :: [(adapter true true true, HostService.device_connected (addr_A, "peer"))])
      Pending w0
    = (outs, Done (true, None), w').
Proof.
  destruct first_resolution_wins as (_ & H & _).
  apply (H addr_A [] (adapter true true true)
           (HostService.bond_state_changed 0 addr_A BONDED)
           [(adapter true true true, HostService.device_connected (addr_A, "peer"))]
           (true, None) w0 [] w0 w0); reflexivity.
Defined.

(** C6. A callback that compares a key of the event with the key of its
    task (the device address, the registration id of the advertising set,
    the uuid of the scanner, the discovering flag) returns at once when
    the two differ: the future is not resolved, nothing is put on a queue,
    no call is handed to the loop and no call is issued on the stack. The
    callbacks that feed a queue without a test ([on_device_connected] of
    Advertise, [on_scan_result], [on_device_found]) are passed no key of
    their task. *)
Theorem key_isolation :
  forall (A B : address) (U V : HostService.uuid) (R S : Z),
    A <> B -> U <> V -> R <> S ->
    (forall client status state f w,
        HostService.PairingObserver_on_bond_state_changed client A status B state f w
          = (Ok tt, f, w))
    /\ (forall peer cod variant passkey f w,
        HostService.PairingObserver_on_ssp_request A (B, peer) cod variant passkey f w
          = (Ok tt, f, w))
    /\ (forall client peer f w,
        HostService.PairingObserver_on_device_connected client A (B, peer) f w
          = (Ok tt, f, w))
    /\ (forall peer f w,
        HostService.WaitConnection_on_device_connected A (B, peer) f w = (Ok tt, f, w))
    /\ (forall peer f w,
        HostService.WaitDisconnection_on_device_disconnected A (B, peer) f w = (Ok tt, f, w))
    /\ (forall advertiser_id tx_power status f w,
        HostService.AdvertisingObserver_on_advertising_set_started
          R S advertiser_id tx_power status f w = (Ok tt, f, w))
    /\ (forall scanner_id status task w,
        HostService.ScanObserver_on_scanner_registered U V scanner_id status task w
          = (Ok tt, task, w))
    /\ (forall discovering f w,
        HostService.DiscoveryObserver_on_discovering_changed
          discovering (negb discovering) f w = (Ok tt, f, w))
    /\ (forall mtu status lf w,
        GATTService.MTUChangeObserver_on_configure_mtu A B mtu status lf w = (Ok tt, lf, w))
    /\ (forall status handle lf w,
        GATTService.WriteAttObserver_on_characteristic_write A B status handle lf w
          = (Ok tt, lf, w)
        /\ GATTService.WriteAttObserver_on_descriptor_write A B status handle lf w
          = (Ok tt, lf, w))
    /\ (forall status handle value lf w,
        GATTService.ReadCharacteristicFromHandleObserver_on_characteristic_read
          A B status handle value lf w = (Ok tt, lf, w)
        /\ GATTService.ReadCharacteristicDescriptorFromHandleObserver_on_descriptor_read
          A B status handle value lf w = (Ok tt, lf, w))
    /\ (forall (T : Type) (services : T) status lf w,
        GATTService.DiscoveryObserver_on_search_complete A B services status lf w
          = (Ok tt, lf, w))
    /\ (forall props_has_uuids lf w,
        GATTService.DiscoverySDPObserver_on_device_properties_changed A B props_has_uuids lf w
          = (Ok tt, lf, w))
    /\ (forall interval latency timeout status lf w,
        GATTService.ClearCacheObserver_on_connection_updated
          A B interval latency timeout status lf w = (Ok tt, lf, w)).
Proof.
  intros A B U V R S HAB HUV HRS.
  assert (EA : (B =? A) = false) by (apply String.eqb_neq; congruence).
  assert (EU : (V =? U) = false) by (apply String.eqb_neq; congruence).
  assert (ER : (S =? R)%Z = false) by (apply Z.eqb_neq; congruence).
  repeat split; intros;
    unfold HostService.PairingObserver_on_bond_state_changed,
      HostService.PairingObserver_on_ssp_request,
      HostService.PairingObserver_on_device_connected,
      HostService.WaitConnection_on_device_connected,
      HostService.WaitDisconnection_on_device_disconnected,
      HostService.AdvertisingObserver_on_advertising_set_started,
      HostService.ScanObserver_on_scanner_registered,
      HostService.DiscoveryObserver_on_discovering_changed,
      GATTService.MTUChangeObserver_on_configure_mtu,
      GATTService.WriteAttObserver_on_characteristic_write,
      GATTService.WriteAttObserver_on_descriptor_write,
      GATTService.ReadCharacteristicFromHandleObserver_on_characteristic_read,
      GATTService.ReadCharacteristicDescriptorFromHandleObserver_on_descriptor_read,
      GATTService.DiscoveryObserver_on_search_complete,
      GATTService.DiscoverySDPObserver_on_device_properties_changed,
      GATTService.ClearCacheObserver_on_connection_updated;
    cbn [fst]; rewrite ?EA, ?EU, ?ER; try reflexivity.
  destruct discovering; reflexivity.
Qed.

Lemma key_isolation_witness :
  HostService.PairingObserver_on_bond_state_changed
    (adapter true true true) addr_A 0 addr_B BONDED Pending w0 = (Ok tt, Pending, w0)
  /\ HostService.ScanObserver_on_scanner_registered "uuid-1" "uuid-2" 7 SUCCESS
       {| HostService.register_scanner_future := Pending; HostService.scan_results := [] |} w0
     = (Ok tt,
        {| HostService.register_scanner_future := Pending; HostService.scan_results := [] |},
        w0).
Proof.
  assert (HA : addr_A <> addr_B) by (unfold addr_A, addr_B; discriminate).
  assert (HU : "uuid-1" <> "uuid-2") by discriminate.
  assert (HR : 1%Z <> 2%Z) by discriminate.
  pose proof (key_isolation addr_A addr_B "uuid-1" "uuid-2" 1 2 HA HU HR) as H.
  destruct H as (H1 & _ & _ & _ & _ & _ & H7 & _).
  split; [apply H1 | apply H7].
Defined.

(** Scenario: a scanner is registered with uuid [U]. An
    [on_scanner_registered] for another uuid is ignored, the one for [U]
    resolves the registration, and two scan results are queued in the
    order they arrive. *)
Example Scan_registration_and_results :
  let task0 := {| HostService.register_scanner_future := Pending;
                  HostService.scan_results := [] |} in
  let callbacks :=
    HostService.ScanObserver_on_scanner_registered "U" "V" 1 SUCCESS ;;
    HostService.ScanObserver_on_scanner_registered "U" "U" 2 SUCCESS ;;
    HostService.ScanObserver_on_scan_result scan_result_1 ;;
    HostService.ScanObserver_on_scan_result scan_result_2 in
  callbacks task0 w0
  = (Ok tt,
     {| HostService.register_scanner_future := Done (Some 2%Z);
        HostService.scan_results := [scan_result_1; scan_result_2] |},
     w0).
Proof. reflexivity. Qed.

(** * Properties of the handlers *)

(** C10. [DiscoverServicesSdp] for a device whose bond state is [BONDING]
    (both readings of [get_bond_state]): whatever [get_remote_uuids]
    answered (no list, an empty list, a non-empty list) the handler issues
    no call, so registers no observer, leaves [name] and [observer]
    unassigned, and ends with the [UnboundLocalError] (a [NameError]) that
    reading [name] in the [finally] block raises; it returns no response. *)
Theorem DiscoverServicesSdp_bonding_raises_NameError :
  forall (env : GATTService.DiscoverServicesSdp_env) (a : address),
    GATTService.env_bond_state_first env = BONDING ->
    GATTService.env_bond_state_second env = BONDING ->
    let r := run (GATTService.DiscoverServicesSdp env a) GATTService.enter in
    result_of r = Exc (UnboundLocalError "name")
    /\ is_NameError (UnboundLocalError "name") = true
    /\ calls_of r = []
    /\ count is_register (calls_of r) = 0
    /\ GATTService.name (locals_of r) = Unbound
    /\ GATTService.observer (locals_of r) = Unbound.
Proof.
  intros [uuids b1 b2 fetch changed uuids'] a H1 H2. cbn in H1, H2. subst b1 b2.
  destruct uuids as [[| u rest] |]; cbv; repeat split; reflexivity.
Qed.

Lemma DiscoverServicesSdp_bonding_raises_NameError_witness :
  result_of (run (GATTService.DiscoverServicesSdp (sdp_env None) addr_A) GATTService.enter)
    = Exc (UnboundLocalError "name")
  /\ result_of (run (GATTService.DiscoverServicesSdp (sdp_env (Some [])) addr_A) GATTService.enter)
    = Exc (UnboundLocalError "name")
  /\ result_of (run (GATTService.DiscoverServicesSdp (sdp_env (Some ["180A"])) addr_A)
                  GATTService.enter)
    = Exc (UnboundLocalError "name").
Proof.
  split; [| split].
  - exact (proj1 (DiscoverServicesSdp_bonding_raises_NameError
                    (sdp_env None) addr_A eq_refl eq_refl)).
  - exact (proj1 (DiscoverServicesSdp_bonding_raises_NameError
                    (sdp_env (Some [])) addr_A eq_refl eq_refl)).
  - exact (proj1 (DiscoverServicesSdp_bonding_raises_NameError
                    (sdp_env (Some ["180A"])) addr_A eq_refl eq_refl)).
Defined.

(** ** WaitConnection *)

(** C9, what the code does: a [WaitConnection] that waits and whose wait
    is resolved registers and unregisters its observer, then evaluates
    [self.waited_connection], an attribute that [__init__] never set, and
    ends with [AttributeError]: no response is returned and
    [self.waited_connections], the set of the membership test, is left as
    it was. *)
Theorem WaitConnection_after_wait_raises_AttributeError :
  forall (env : HostService.WaitConnection_env) (s : HostService.HostService)
         (a resolved : address),
    negb (HostService.wc_is_connected env) || negb (mem a (HostService.waited_connections s))
      = true ->
    HostService.wc_wait_connection env = Resolved resolved ->
    run (HostService.WaitConnection env {| HostService.wait_address := Some a |})
        (HostService.enter s)
    = (Exc (AttributeError "waited_connection"), wait_frame s,
       {| trace := wait_calls; objects := 1 |}).
Proof.
  intros [connected waited] s a resolved Hwait Hres. cbn in Hwait, Hres. subst waited.
  unfold run, HostService.WaitConnection. cbn [HostService.wait_address].
  unfold bind at 1. unfold locals at 1. cbn [HostService.enter HostService.self].
  cbn [HostService.wc_is_connected]. rewrite Hwait.
  reflexivity.
Qed.

Lemma WaitConnection_after_wait_raises_AttributeError_witness :
  result_of
    (run (HostService.WaitConnection
            {| HostService.wc_is_connected := false;
               HostService.wc_wait_connection := Resolved addr_A |}
            {| HostService.wait_address := Some addr_A |})
         (HostService.enter HostService.__init__))
  = Exc (AttributeError "waited_connection").
Proof.
  rewrite (WaitConnection_after_wait_raises_AttributeError
             {| HostService.wc_is_connected := false;
                HostService.wc_wait_connection := Resolved addr_A |}
             HostService.__init__ addr_A addr_A eq_refl eq_refl).
  reflexivity.
Defined.

(** No handler changes what [self.waited_connections] holds: the set is
    empty in every state the service reaches. *)
Lemma self_after_keeps_empty (s : HostService.HostService) (r : host_rpc) :
  HostService.waited_connections s = [] ->
  HostService.waited_connections (self_after s r) = [].
Proof.
  intro Hs. destruct s as [ws]. cbn in Hs. subst ws.
  destruct r as [| | env request | env request | env request].
  - reflexivity.
  - reflexivity.
  - destruct env as [[] [] [] [[[] reason] | |]]; reflexivity.
  - destruct env as [[] [v | |]], request as [[a |]]; reflexivity.
  - reflexivity.
Qed.

Lemma service_after_waited_connections (rs : list host_rpc) :
  HostService.waited_connections (service_after rs) = [].
Proof.
  unfold service_after.
  assert (H : HostService.waited_connections HostService.__init__ = []) by reflexivity.
  revert H. generalize HostService.__init__ as s.
  induction rs as [| r rest IH]; intros s Hs; cbn.
  - exact Hs.
  - apply IH. apply self_after_keeps_empty. exact Hs.
Qed.

(** C8, the claim as stated fails: the device is already connected, the
    service has just been created, and [WaitConnection] registers an
    observer and stays suspended on the wait. *)
Lemma WaitConnection_waits_though_connected :
  run (HostService.WaitConnection
         {| HostService.wc_is_connected := true;
            HostService.wc_wait_connection := NoEvent |}
         {| HostService.wait_address := Some addr_A |})
      (HostService.enter HostService.__init__)
  = (Blocked, wait_frame HostService.__init__,
     {| trace := [register_callback_observer adapter_client
                    (create_observer_name wait_observer) wait_observer];
        objects := 1 |}).
Proof. reflexivity. Qed.

(** C8, amended. [WaitConnection] returns at once, without a call, exactly
    when the device is connected and its address is in
    [self.waited_connections]; in every other case, so also for a
    connected device whose address is not in the set, its first call
    registers an observer and it awaits the connected-event: it stays
    suspended while no event arrives, and ends with [CancelledError] when
    cancelled there. *)
Theorem WaitConnection_waits_unless_connected_and_waited :
  forall (env : HostService.WaitConnection_env) (s : HostService.HostService) (a : address),
    let r := run (HostService.WaitConnection env {| HostService.wait_address := Some a |})
                 (HostService.enter s) in
    if HostService.wc_is_connected env && mem a (HostService.waited_connections s) then
      r = (Ok {| HostService.wait_connection := {| cookie := a |} |},
           HostService.enter s, w0)
    else
      hd_error (calls_of r)
        = Some (register_callback_observer adapter_client
                  (create_observer_name wait_observer) wait_observer)
      /\ (HostService.wc_wait_connection env = NoEvent -> result_of r = Blocked)
      /\ (HostService.wc_wait_connection env = Cancelled ->
          result_of r = Exc CancelledError).
Proof.
  intros [connected waited] s a r. subst r.
  unfold run, HostService.WaitConnection. cbn [HostService.wait_address].
  unfold bind at 1. unfold locals at 1. cbn [HostService.enter HostService.self].
  cbn [HostService.wc_is_connected HostService.wc_wait_connection].
  cbn.
  destruct connected, (mem a (HostService.waited_connections s)), waited as [v | |];
    cbn; try reflexivity;
    (split; [reflexivity | split; intro; (reflexivity || discriminate)]).
Qed.

Lemma WaitConnection_waits_unless_connected_and_waited_witness :
  result_of
    (run (HostService.WaitConnection
            {| HostService.wc_is_connected := true;
               HostService.wc_wait_connection := Cancelled |}
            {| HostService.wait_address := Some addr_A |})
         (HostService.enter HostService.__init__))
  = Exc CancelledError.
Proof.
  pose proof (WaitConnection_waits_unless_connected_and_waited
                {| HostService.wc_is_connected := true;
                   HostService.wc_wait_connection := Cancelled |}
                HostService.__init__ addr_A) as H.
  cbv zeta in H. cbn [HostService.wc_is_connected andb mem existsb
                      HostService.waited_connections HostService.__init__] in H.
  destruct H as (_ & _ & H). exact (H eq_refl).
Defined.

(** ** ExchangeMTU *)

(** C4, the claim as stated fails: when no [on_configure_mtu] event
    arrives, [ExchangeMTU] does not fail with a timeout error; it stays
    suspended on [await configure_mtu], and the observer it registered is
    not unregistered. *)
Lemma ExchangeMTU_without_event_never_times_out :
  run (GATTService.ExchangeMTU {| GATTService.env_configure_mtu := NoEvent |}
         {| GATTService.mtu_connection := addr_A; GATTService.mtu := 512 |})
      GATTService.enter
  = (Blocked, mtu_frame,
     {| trace := [mtu_register; configure_mtu addr_A 512]; objects := 1 |}).
Proof. reflexivity. Qed.

(** C4, amended. [ExchangeMTU] awaits the [configure_mtu] future without a
    timeout. With no matching event the call never ends and raises no
    timeout error, and the observer stays registered. When the call ends
    (the event arrived, or the task was cancelled at the await) the
    observer has been unregistered, once, as the last call: the RPC
    succeeds on a [SUCCESS] status, fails with [RuntimeError] on any other
    status and with [CancelledError] when cancelled. *)
Theorem ExchangeMTU_wait_has_no_timeout :
  forall (env : GATTService.ExchangeMTU_env) (request : GATTService.ExchangeMTURequest),
    let r := run (GATTService.ExchangeMTU env request) GATTService.enter in
    let started :=
      [mtu_register;
       configure_mtu (GATTService.mtu_connection request) (GATTService.mtu request)] in
    result_of r <> Exc TimeoutError
    /\ result_of r =
       match GATTService.env_configure_mtu env with
       | Resolved s =>
           if GattStatus_eqb s SUCCESS then Ok tt
           else Exc (RuntimeError Failed_to_configure_MTU)
       | Cancelled => Exc CancelledError
       | NoEvent => Blocked
       end
    /\ calls_of r = (if ended (result_of r) then started ++ [mtu_unregister] else started).
Proof.
  intros [[s | |]] [a m]; cbn.
  - destruct s as [| n]; cbn; (split; [discriminate | split; reflexivity]).
  - split; [discriminate | split; reflexivity].
  - split; [discriminate | split; reflexivity].
Qed.

(** ** WriteAttFromHandle *)

(** C5. [WriteAttFromHandle]:
    - it first reads the characteristic at the requested handle; when the
      read completes with [SUCCESS] it writes the characteristic, and the
      response carries the status and the handle of the write-complete
      event;
    - when the read completes with another status it reads the descriptor
      at the handle; when that read completes with [SUCCESS] it writes the
      descriptor, and the response carries the status and the handle of
      the write-complete event;
    - when the descriptor read fails as well, nothing is written and the
      call returns a response with the handle of the request and the
      status [INVALID_HANDLE].
    In each case every observer registered is unregistered before the
    call returns. *)
Theorem WriteAttFromHandle_read_before_write :
  forall (request : WriteRequest) (l0 : GATTService.Write_frame)
         (env : GATTService.Write_env),
    let r := run (GATTService.WriteAttFromHandle env request) l0 in
    let a := wr_connection request in
    let h := wr_handle request in
    let w_obs := write_observer WriteAttObserver 0 in
    let c_obs := write_observer ReadCharacteristicFromHandleObserver 1 in
    let d_obs := write_observer ReadCharacteristicDescriptorFromHandleObserver 2 in
    (forall write_status write_handle,
        GATTService.env_characteristics env = Resolved SUCCESS ->
        GATTService.env_write_attribute env = Resolved (write_status, write_handle) ->
        result_of r
          = Ok {| wresp_handle := write_handle; wresp_status := att_status write_status |}
        /\ calls_of r =
           [ write_register w_obs; write_register c_obs;
             read_characteristic a h GATTService.AUTHENTICATION_NONE;
             write_characteristic a h GATTService.WRITE_TYPE_DEFAULT
               GATTService.AUTHENTICATION_NONE (wr_value request);
             write_unregister w_obs; write_unregister c_obs ])
    /\ (forall char_status write_status write_handle,
        GATTService.env_characteristics env = Resolved char_status ->
        char_status <> SUCCESS ->
        GATTService.env_descriptors env = Resolved SUCCESS ->
        GATTService.env_write_attribute env = Resolved (write_status, write_handle) ->
        result_of r
          = Ok {| wresp_handle := write_handle; wresp_status := att_status write_status |}
        /\ calls_of r =
           [ write_register w_obs; write_register c_obs;
             read_characteristic a h GATTService.AUTHENTICATION_NONE;
             write_register d_obs;
             read_descriptor a h GATTService.AUTHENTICATION_NONE;
             write_descriptor a h GATTService.AUTHENTICATION_NONE (wr_value request);
             write_unregister w_obs; write_unregister c_obs; write_unregister d_obs ])
    /\ (forall char_status desc_status,
        GATTService.env_characteristics env = Resolved char_status ->
        char_status <> SUCCESS ->
        GATTService.env_descriptors env = Resolved desc_status ->
        desc_status <> SUCCESS ->
        result_of r = Ok {| wresp_handle := h; wresp_status := INVALID_HANDLE |}
        /\ calls_of r =
           [ write_register w_obs; write_register c_obs;
             read_characteristic a h GATTService.AUTHENTICATION_NONE;
             write_register d_obs;
             read_descriptor a h GATTService.AUTHENTICATION_NONE;
             write_unregister w_obs; write_unregister c_obs; write_unregister d_obs ]).
Proof.
  intros [a h v] l0 [ec ed ew]. cbn zeta.
  cbn [GATTService.env_characteristics GATTService.env_descriptors
       GATTService.env_write_attribute wr_connection wr_handle wr_value].
  split; [| split].
  - intros ws wh -> ->. split; reflexivity.
  - intros cs ws wh -> Hcs -> ->.
    destruct cs as [| n]; [contradiction |]. split; reflexivity.
  - intros cs ds -> Hcs -> Hds.
    destruct cs as [| n]; [contradiction |]. destruct ds as [| m]; [contradiction |].
    split; reflexivity.
Qed.

Lemma WriteAttFromHandle_read_before_write_witness :
  result_of (run (GATTService.WriteAttFromHandle
                    (write_env (GattStatus_value 1) (GattStatus_value 1)) write_request)
                 write_frame0)
  = Ok {| wresp_handle := 42; wresp_status := INVALID_HANDLE |}.
Proof.
  pose proof (WriteAttFromHandle_read_before_write write_request write_frame0
                (write_env (GattStatus_value 1) (GattStatus_value 1))) as H.
  cbv zeta in H. destruct H as (_ & _ & H).
  apply (H (GattStatus_value 1) (GattStatus_value 1) eq_refl); [discriminate | reflexivity | discriminate].
Defined.

(** * Counting calls along a run *)

Lemma count_nil (k : action -> bool) : count k [] = 0.
Proof. reflexivity. Qed.

Lemma count_app (k : action -> bool) (t u : list action) :
  count k (t ++ u) = count k t + count k u.
Proof.
  unfold count. rewrite filter_app, length_app. reflexivity.
Qed.

Lemma count_snoc (k : action -> bool) (t : list action) (a : action) :
  count k (t ++ [a]) = count k t + (if k a then 1 else 0).
Proof.
  rewrite count_app. unfold count. cbn. destruct (k a); reflexivity.
Qed.

Lemma filter_snoc (k : action -> bool) (t : list action) (a : action) :
  filter k (t ++ [a]) = filter k t ++ (if k a then [a] else []).
Proof.
  rewrite filter_app. cbn. destruct (k a); reflexivity.
Qed.

Lemma filter_of_count_zero (k : action -> bool) (t : list action) :
  count k t = 0 -> filter k t = [].
Proof. unfold count. apply length_zero_iff_nil. Qed.

(** ** The [finally] block of Advertise *)

Lemma Advertise_for_each_unregister (obs : list (observer_name * Observer))
    (l : HostService.Advertise_frame) (w : world) :
  for_each obs (fun no =>
      call (unregister_callback_observer adapter_client (fst no) (snd no)) ;;
      call (unregister_callback_observer advertising_client (fst no) (snd no))) l w
  = (Ok tt, l,
     {| trace := trace w ++ flat_map Advertise_unregisters obs; objects := objects w |}).
Proof.
  revert w. induction obs as [| no rest IH]; intro w; cbn [for_each flat_map].
  - unfold ret. rewrite app_nil_r. destruct w; reflexivity.
  - unfold bind at 1. unfold bind at 1. unfold call at 1 2.
    rewrite IH. cbn [trace objects].
    rewrite <- !app_assoc. reflexivity.
Qed.

Lemma Advertise_for_each_stop (ids : list (option Z))
    (l : HostService.Advertise_frame) (w : world) :
  for_each ids (fun started => call (stop_advertising_set started)) l w
  = (Ok tt, l,
     {| trace := trace w ++ map stop_advertising_set ids; objects := objects w |}).
Proof.
  revert w. induction ids as [| i rest IH]; intro w; cbn [for_each map].
  - unfold ret. rewrite app_nil_r. destruct w; reflexivity.
  - unfold bind at 1. unfold call at 1.
    rewrite IH. cbn [trace objects].
    rewrite <- !app_assoc. reflexivity.
Qed.

Lemma Advertise_finally_run (l : HostService.Advertise_frame) (w : world) :
  HostService.Advertise_finally l w
  = (Ok tt, l,
     {| trace := (trace w ++ flat_map Advertise_unregisters (HostService.observers l))
                   ++ map stop_advertising_set (HostService.started_ids l);
        objects := objects w |}).
Proof.
  unfold HostService.Advertise_finally.
  unfold bind at 1. unfold locals at 1.
  unfold bind at 1. rewrite Advertise_for_each_unregister.
  unfold bind at 1. unfold locals at 1.
  rewrite Advertise_for_each_stop. reflexivity.
Qed.

Lemma count_unregister_flat_map (obs : list (observer_name * Observer)) :
  count is_unregister (flat_map Advertise_unregisters obs) = 2 * List.length obs.
Proof.
  induction obs as [| no rest IH]; [reflexivity |].
  cbn [flat_map]. rewrite count_app, IH.
  change (count is_unregister (Advertise_unregisters no)) with 2. cbn. lia.
Qed.

Lemma count_other_flat_map (k : action -> bool) (obs : list (observer_name * Observer)) :
  (forall c n o, k (unregister_callback_observer c n o) = false) ->
  count k (flat_map Advertise_unregisters obs) = 0.
Proof.
  intro Hk. induction obs as [| no rest IH]; [reflexivity |].
  cbn [flat_map]. rewrite count_app, IH. unfold count. cbn. rewrite !Hk. reflexivity.
Qed.

Lemma count_stop_map (ids : list (option Z)) :
  count is_stop_advertising_set (map stop_advertising_set ids) = List.length ids.
Proof.
  induction ids as [| i rest IH]; [reflexivity |].
  unfold count in *. cbn. rewrite IH. reflexivity.
Qed.

Lemma count_other_map_stop (k : action -> bool) (ids : list (option Z)) :
  (forall i, k (stop_advertising_set i) = false) ->
  count k (map stop_advertising_set ids) = 0.
Proof.
  intro Hk. induction ids as [| i rest IH]; [reflexivity |].
  unfold count in *. cbn. rewrite Hk. exact IH.
Qed.

(** ** The loop of Advertise *)

(** The loop does not return; when it ends, it ends with an exception,
    the invariant holds, and at most one [start_advertising_set] has no
    entry in [started_ids]. *)
Ltac count_calls :=
  cbn [trace objects HostService.observers HostService.started_ids
       HostService.observers_append HostService.started_ids_append];
  rewrite ?count_snoc, ?length_app; cbn; repeat split; lia.

Ltac loop_ends side :=
  eexists _, _, _; cbn; split; [reflexivity |];
  split; [discriminate |]; side; unfold Advertise_inv; count_calls.

Lemma Advertise_loop_inv (request : AdvertiseRequest) (turns : list HostService.Advertise_turn) :
  forall l w,
    Advertise_inv 0 l w ->
    exists o l' w',
      HostService.Advertise_loop request turns l w = (o, l', w')
      /\ (forall u, o <> Ok u)
      /\ (Advertise_inv 0 l' w' \/ Advertise_inv 1 l' w').
Proof.
  induction turns as [| t rest IH]; intros l w Hinv.
  - exists Blocked, l, w. cbn. repeat split; try discriminate. left. exact Hinv.
  - destruct Hinv as (Hr & Hu & Hs & Hst).
    destruct t as [active start idle conn cons restart].
    cbn [HostService.Advertise_loop HostService.turn_active_advs
           HostService.turn_start_advertising HostService.turn_idle_sleep
           HostService.turn_connection HostService.turn_consumer
           HostService.turn_restart_sleep].
    destruct active; cbn [negb].
    + (* an advertising set is active: nothing is started *)
      destruct (req_connectable request); cbn [negb].
      * destruct conn as [a | |]; [ | loop_ends ltac:(left) | loop_ends ltac:(left) ].
        destruct cons; [ | loop_ends ltac:(left) | loop_ends ltac:(left) ].
        destruct restart; [ | loop_ends ltac:(left) ].
        cbn. apply IH. unfold Advertise_inv. count_calls.
      * destruct idle; [ | loop_ends ltac:(left) ].
        cbn. apply IH. unfold Advertise_inv. count_calls.
    + (* no advertising set is active: one is started *)
      destruct start as [id | |]; [ | loop_ends ltac:(right) | loop_ends ltac:(right) ].
      destruct (req_connectable request); cbn [negb].
      * destruct conn as [a | |]; [ | loop_ends ltac:(left) | loop_ends ltac:(left) ].
        destruct cons; [ | loop_ends ltac:(left) | loop_ends ltac:(left) ].
        destruct restart; [ | loop_ends ltac:(left) ].
        cbn. apply IH. unfold Advertise_inv. count_calls.
      * destruct idle; [ | loop_ends ltac:(left) ].
        cbn. apply IH. unfold Advertise_inv. count_calls.
Qed.


(** The body of the [try] of Advertise, from the first statement to the
    end of the loop. *)
Lemma Advertise_try_inv (env : HostService.Advertise_env) (request : AdvertiseRequest) :
  exists o l' w',
    HostService.Advertise_try env request
      {| HostService.started_ids := []; HostService.observers := [] |} w0
    = (o, l', w')
    /\ (forall u, o <> Ok u)
    /\ (Advertise_inv 0 l' w' \/ Advertise_inv 1 l' w').
Proof.
  unfold HostService.Advertise_try.
  destruct (req_connectable request); cbn.
  - apply Advertise_loop_inv. unfold Advertise_inv. cbn. repeat split; reflexivity.
  - apply Advertise_loop_inv. unfold Advertise_inv. cbn. repeat split; reflexivity.
Qed.

Lemma Advertise_run (env : HostService.Advertise_env) (request : AdvertiseRequest)
    (l0 : HostService.Advertise_frame) :
  run (HostService.Advertise env request) l0
  = try_finally (HostService.Advertise_try env request) HostService.Advertise_finally
      {| HostService.started_ids := []; HostService.observers := [] |} w0.
Proof. reflexivity. Qed.

(** A run of Advertise that has ended: it ended with an exception, and its
    calls are those of the [try] body, for which the invariant holds,
    followed by two unregister calls per entry of [observers] and one
    [stop_advertising_set] per entry of [started_ids]. *)
Lemma Advertise_exit (env : HostService.Advertise_env) (request : AdvertiseRequest)
    (l0 : HostService.Advertise_frame) :
  let r := run (HostService.Advertise env request) l0 in
  ended (result_of r) = true ->
  exists e t n pending,
    result_of r = Exc e
    /\ calls_of r =
       (t ++ flat_map Advertise_unregisters (HostService.observers (locals_of r)))
         ++ map stop_advertising_set (HostService.started_ids (locals_of r))
    /\ Advertise_inv pending (locals_of r) {| trace := t; objects := n |}
    /\ pending <= 1.
Proof.
  intro r. subst r. rewrite Advertise_run. unfold try_finally.
  destruct (Advertise_try_inv env request) as (o & l' & w' & E & Hok & Hinv).
  rewrite E.
  destruct o as [u | e |].
  - exfalso. exact (Hok u eq_refl).
  - rewrite Advertise_finally_run. cbn. intros _.
    exists e, (trace w'), (objects w').
    destruct w' as [t n]. cbn [trace objects].
    destruct Hinv as [H | H]; [exists 0 | exists 1]; repeat split; try apply H; lia.
  - cbn. discriminate.
Qed.


(** ** The observers Advertise registers and unregisters *)

Lemma registered_app (t u : list action) : registered (t ++ u) = registered t ++ registered u.
Proof. unfold registered. apply flat_map_app. Qed.

Lemma registered_snoc_register (t : list action) (c : client) (n : observer_name)
    (o : Observer) :
  registered (t ++ [register_callback_observer c n o]) = registered t ++ [(n, o)].
Proof. rewrite registered_app. reflexivity. Qed.

Lemma registered_snoc_other (t : list action) (a : action) :
  is_register a = false -> registered (t ++ [a]) = registered t.
Proof.
  intro H. rewrite registered_app.
  destruct a; try discriminate H; cbn; apply app_nil_r.
Qed.

Lemma registered_Advertise_unregisters (obs : list (observer_name * Observer)) :
  registered (flat_map Advertise_unregisters obs) = [].
Proof. induction obs as [| no rest IH]; [reflexivity | exact IH]. Qed.

Lemma registered_map_stop (ids : list (option Z)) :
  registered (map stop_advertising_set ids) = [].
Proof. induction ids as [| i rest IH]; [reflexivity | exact IH]. Qed.

Lemma filter_unregister_flat_map (obs : list (observer_name * Observer)) :
  filter is_unregister (flat_map Advertise_unregisters obs) = flat_map Advertise_unregisters obs.
Proof. induction obs as [| no rest IH]; [reflexivity |]. cbn. rewrite IH. reflexivity. Qed.

Ltac read_registered :=
  cbn [trace objects calls_of locals_of fst snd HostService.observers HostService.started_ids
       HostService.observers_append HostService.started_ids_append];
  repeat (rewrite registered_snoc_register || rewrite registered_snoc_other by reflexivity).

(** [observers] holds the name and the observer of every register call,
    in the order of the calls. *)
Lemma Advertise_loop_registered (request : AdvertiseRequest)
    (turns : list HostService.Advertise_turn) :
  forall l w,
    registered (trace w) = HostService.observers l ->
    registered (calls_of (HostService.Advertise_loop request turns l w))
    = HostService.observers (locals_of (HostService.Advertise_loop request turns l w)).
Proof.
  induction turns as [| t rest IH]; intros l w H.
  - exact H.
  - destruct t as [active start idle conn cons restart].
    cbn [HostService.Advertise_loop HostService.turn_active_advs
           HostService.turn_start_advertising HostService.turn_idle_sleep
           HostService.turn_connection HostService.turn_consumer
           HostService.turn_restart_sleep].
    destruct active; cbn [negb].
    + destruct (req_connectable request); cbn [negb].
      * destruct conn as [a | |]; [| cbn; read_registered; exact H ..].
        destruct cons; [| cbn; read_registered; exact H ..].
        destruct restart; [| cbn; read_registered; exact H].
        cbn. apply IH. read_registered. exact H.
      * destruct idle; [| cbn; read_registered; exact H].
        cbn. apply IH. read_registered. exact H.
    + destruct start as [id | |]; [| cbn; read_registered; rewrite H; reflexivity ..].
      destruct (req_connectable request); cbn [negb].
      * destruct conn as [a | |]; [| cbn; read_registered; rewrite H; reflexivity ..].
        destruct cons; [| cbn; read_registered; rewrite H; reflexivity ..].
        destruct restart; [| cbn; read_registered; rewrite H; reflexivity].
        cbn. apply IH. read_registered. rewrite H. reflexivity.
      * destruct idle; [| cbn; read_registered; rewrite H; reflexivity].
        cbn. apply IH. read_registered. rewrite H. reflexivity.
Qed.

Lemma Advertise_try_registered (env : HostService.Advertise_env) (request : AdvertiseRequest) :
  let body := HostService.Advertise_try env request
                {| HostService.started_ids := []; HostService.observers := [] |} w0 in
  registered (calls_of body) = HostService.observers (locals_of body).
Proof.
  unfold HostService.Advertise_try.
  destruct (req_connectable request); cbn; apply Advertise_loop_registered; reflexivity.
Qed.

(** When Advertise has ended, its unregister calls are the two of
    [Advertise_unregisters] for each register call of the run, in the
    order of the register calls. *)
Lemma Advertise_exit_unregisters (env : HostService.Advertise_env) (request : AdvertiseRequest)
    (l0 : HostService.Advertise_frame) :
  let r := run (HostService.Advertise env request) l0 in
  ended (result_of r) = true ->
  filter is_unregister (calls_of r) = flat_map Advertise_unregisters (registered (calls_of r)).
Proof.
  intro r. subst r. rewrite Advertise_run. unfold try_finally.
  pose proof (Advertise_try_registered env request) as Hreg. cbv zeta in Hreg.
  destruct (Advertise_try_inv env request) as (o & l' & w' & E & Hok & Hinv).
  rewrite E in *. change (registered (trace w') = HostService.observers l') in Hreg.
  assert (Hu : filter is_unregister (trace w') = []).
  { apply filter_of_count_zero. destruct Hinv as [H | H]; apply H. }
  destruct o as [u | e |].
  - exfalso. exact (Hok u eq_refl).
  - rewrite Advertise_finally_run. cbn. intros _.
    rewrite !filter_app, !registered_app, Hu, Hreg.
    rewrite registered_Advertise_unregisters, registered_map_stop, filter_unregister_flat_map.
    rewrite (filter_of_count_zero _ _ (count_other_map_stop is_unregister _ (fun _ => eq_refl))).
    rewrite !app_nil_r. reflexivity.
  - cbn. discriminate.
Qed.

(** The counts of a run of Advertise that has ended. *)
Lemma Advertise_exit_counts (env : HostService.Advertise_env) (request : AdvertiseRequest)
    (l0 : HostService.Advertise_frame) :
  let r := run (HostService.Advertise env request) l0 in
  ended (result_of r) = true ->
  count is_register (calls_of r) = List.length (HostService.observers (locals_of r))
  /\ count is_unregister (calls_of r) = 2 * List.length (HostService.observers (locals_of r))
  /\ count is_stop_advertising_set (calls_of r)
     = List.length (HostService.started_ids (locals_of r))
  /\ (count is_start_advertising_set (calls_of r)
      = List.length (HostService.started_ids (locals_of r))
      \/ count is_start_advertising_set (calls_of r)
         = S (List.length (HostService.started_ids (locals_of r)))).
Proof.
  intros r Hend.
  destruct (Advertise_exit env request l0 Hend) as (e & t & n & pending & _ & Hcalls & Hinv & Hp).
  fold r in Hcalls, Hinv. rewrite Hcalls.
  destruct Hinv as (Hr & Hu & Hs & Hst). cbn [trace] in Hr, Hu, Hs, Hst.
  rewrite !count_app.
  rewrite count_unregister_flat_map, count_stop_map.
  rewrite !(count_other_flat_map is_register), !(count_other_flat_map is_stop_advertising_set),
    !(count_other_flat_map is_start_advertising_set) by reflexivity.
  rewrite !(count_other_map_stop is_register), !(count_other_map_stop is_unregister),
    !(count_other_map_stop is_start_advertising_set) by reflexivity.
  repeat split; try lia.
Qed.

(** ** The loops of Scan and Inquiry *)

Lemma filter_yields (k : action -> bool) (ys : list streamed) :
  (forall y, k (yield_ y) = false) -> filter k (map yield_ ys) = [].
Proof.
  intro Hk. induction ys as [| y rest IH]; [reflexivity |].
  cbn. rewrite Hk. exact IH.
Qed.

Lemma count_yields (k : action -> bool) (ys : list streamed) :
  (forall y, k (yield_ y) = false) -> count k (map yield_ ys) = 0.
Proof.
  intro Hk. unfold count. rewrite filter_yields by exact Hk. reflexivity.
Qed.

(** The loop of Scan only yields: it leaves the locals, and it does not
    return. *)
Lemma Scan_loop_yields (turns : list HostService.Scan_turn) :
  forall l w,
    exists o ys,
      HostService.Scan_loop turns l w
      = (o, l, {| trace := trace w ++ map yield_ ys; objects := objects w |})
      /\ (forall u, o <> Ok u).
Proof.
  induction turns as [| [res cons] rest IH]; intros l w.
  - exists Blocked, []. cbn. rewrite app_nil_r. destruct w. split; [reflexivity | discriminate].
  - cbn [HostService.Scan_loop HostService.turn_scan_result HostService.turn_scan_consumer].
    destruct res as [r | |].
    + destruct cons.
      * cbn.
        destruct (IH l {| trace := trace w ++ [yield_ (ScanningResponse_ (HostService.Scan_response r))];
                          objects := objects w |}) as (o & ys & E & Hok).
        rewrite E. exists o, (ScanningResponse_ (HostService.Scan_response r) :: ys).
        cbn [trace objects map]. rewrite <- app_assoc. split; [reflexivity | exact Hok].
      * exists (Exc GeneratorExit), [ScanningResponse_ (HostService.Scan_response r)].
        split; [reflexivity | discriminate].
      * exists Blocked, [ScanningResponse_ (HostService.Scan_response r)].
        split; [reflexivity | discriminate].
    + exists (Exc CancelledError), []. cbn. rewrite app_nil_r. destruct w.
      split; [reflexivity | discriminate].
    + exists Blocked, []. cbn. rewrite app_nil_r. destruct w.
      split; [reflexivity | discriminate].
Qed.

Lemma Inquiry_loop_yields (turns : list HostService.Inquiry_turn) :
  forall l w,
    exists o ys,
      HostService.Inquiry_loop turns l w
      = (o, l, {| trace := trace w ++ map yield_ ys; objects := objects w |})
      /\ (forall u, o <> Ok u).
Proof.
  induction turns as [| [res cons] rest IH]; intros l w.
  - exists Blocked, []. cbn. rewrite app_nil_r. destruct w. split; [reflexivity | discriminate].
  - cbn [HostService.Inquiry_loop HostService.turn_device_found
           HostService.turn_inquiry_consumer].
    destruct res as [a | |].
    + destruct cons.
      * cbn.
        destruct (IH l {| trace := trace w ++ [yield_ (InquiryResponse a)];
                          objects := objects w |}) as (o & ys & E & Hok).
        rewrite E. exists o, (InquiryResponse a :: ys).
        cbn [trace objects map]. rewrite <- app_assoc. split; [reflexivity | exact Hok].
      * exists (Exc GeneratorExit), [InquiryResponse a].
        split; [reflexivity | discriminate].
      * exists Blocked, [InquiryResponse a].
        split; [reflexivity | discriminate].
    + exists (Exc CancelledError), []. cbn. rewrite app_nil_r. destruct w.
      split; [reflexivity | discriminate].
    + exists Blocked, []. cbn. rewrite app_nil_r. destruct w.
      split; [reflexivity | discriminate].
Qed.

(** Rewrites the loop at the head of the goal with what it yields, and
    splits on how it ends. *)
Ltac run_loop lemma :=
  match goal with
  | |- context [HostService.Scan_loop ?t ?l ?w] =>
      let o := fresh "o" in let ys := fresh "ys" in
      let E := fresh "E" in let Hok := fresh "Hok" in
      destruct (lemma t l w) as (o & ys & E & Hok); rewrite !E; clear E;
      destruct o as [u | e |]; [exfalso; exact (Hok u eq_refl) | | ]
  | |- context [HostService.Inquiry_loop ?t ?l ?w] =>
      let o := fresh "o" in let ys := fresh "ys" in
      let E := fresh "E" in let Hok := fresh "Hok" in
      destruct (lemma t l w) as (o & ys & E & Hok); rewrite !E; clear E;
      destruct o as [u | e |]; [exfalso; exact (Hok u eq_refl) | | ]
  end.

Ltac count_filters :=
  cbn [trace objects];
  repeat rewrite ?filter_app, ?count_app, ?count_yields, ?filter_yields by reflexivity;
  cbn; repeat split; try reflexivity; try lia.

(** A run of Scan that has ended: the observer was registered once and
    unregistered once; [start_scan] was issued when the wait for the
    registration delivered an identifier, and [stop_scan] once, for that
    identifier, when it is not [None]. *)
Lemma Scan_exit (env : HostService.Scan_env) (l0 : HostService.Scan_frame) :
  let r := run (HostService.Scan env) l0 in
  ended (result_of r) = true ->
  (exists e, result_of r = Exc e)
  /\ count is_register (calls_of r) = 1
  /\ count is_unregister (calls_of r) = 1
  /\ filter is_start_scan (calls_of r)
     = match HostService.scan_register_scanner env with
       | Resolved id => [start_scan id]
       | _ => []
       end
  /\ filter is_stop_scan (calls_of r)
     = match HostService.scan_register_scanner env with
       | Resolved (Some id) => [stop_scan id]
       | _ => []
       end.
Proof.
  destruct env as [registered turns].
  intros r Hend. subst r. revert Hend.
  unfold count, calls_of, result_of, run, HostService.Scan.
  cbn [HostService.scan_register_scanner HostService.scan_turns].
  destruct registered as [[id |] | |];
    cbv -[HostService.Scan_loop app filter map List.length].
  - run_loop Scan_loop_yields; cbn; intro Hend; [| discriminate].
    split; [eexists; reflexivity |]. count_filters.
  - run_loop Scan_loop_yields; cbn; intro Hend; [| discriminate].
    split; [eexists; reflexivity |]. count_filters.
  - intros _. split; [eexists; reflexivity |]. repeat split; reflexivity.
  - intros _. split; [eexists; reflexivity |]. repeat split; reflexivity.
Qed.

(** A run of Inquiry that has ended: [stop_discovery] was issued once,
    [start_discovery] at most once, and every observer registered was
    unregistered. *)
Lemma Inquiry_exit (env : HostService.Inquiry_env) (l0 : HostService.Inquiry_frame) :
  let r := run (HostService.Inquiry env) l0 in
  ended (result_of r) = true ->
  (exists e, result_of r = Exc e)
  /\ count is_register (calls_of r) = count is_unregister (calls_of r)
  /\ count is_stop_discovery (calls_of r) = 1
  /\ count is_start_discovery (calls_of r)
     = (if HostService.inq_is_discovering env then 0 else 1).
Proof.
  destruct env as [discovering started turns].
  intros r Hend. subst r. revert Hend.
  unfold count, calls_of, result_of, run, HostService.Inquiry.
  cbn [HostService.inq_is_discovering HostService.inq_start_inquiry HostService.inq_turns].
  destruct discovering; [| destruct started as [b | |]];
    cbv -[HostService.Inquiry_loop app filter map List.length].
  - run_loop Inquiry_loop_yields; cbn; intro Hend; [| discriminate].
    split; [eexists; reflexivity |]. count_filters.
  - run_loop Inquiry_loop_yields; cbn; intro Hend; [| discriminate].
    split; [eexists; reflexivity |]. count_filters.
  - intros _. split; [eexists; reflexivity |]. repeat split; reflexivity.
  - intros _. split; [eexists; reflexivity |]. repeat split; reflexivity.
Qed.

(** * Registration and teardown on every exit *)

(** C2, the claim as stated fails: Advertise starts an advertising set,
    registers one observer for it and is cancelled in its sleep; its
    [finally] block issues two unregister calls for that observer, one on
    the adapter client and one on the advertising client. *)
Lemma Advertise_unregisters_twice :
  let r := run (HostService.Advertise
                  {| HostService.adv_turns := [advertise_turn (Resolved (Some 3%Z)) CancelledAsleep] |}
                  advertise_once) advertise_frame0 in
  result_of r = Exc CancelledError
  /\ calls_of r =
     [ start_advertising_set (HostService.Advertise_parameters advertise_once) "data";
       register_callback_observer advertising_client
         (create_observer_name advertising_observer0) advertising_observer0;
       sleep 1;
       unregister_callback_observer adapter_client
         (create_observer_name advertising_observer0) advertising_observer0;
       unregister_callback_observer advertising_client
         (create_observer_name advertising_observer0) advertising_observer0;
       stop_advertising_set (Some 3%Z) ]
  /\ count is_register (calls_of r) = 1
  /\ count is_unregister (calls_of r) = 2.
Proof. cbv. repeat split; reflexivity. Qed.

Ltac by_cases :=
  cbv -[mem GATTService.create_gatt_service]; intuition (try discriminate; try reflexivity).

(** C2, amended. On every exit path of every handler but Advertise
    (return, exception raised by the handler, cancellation at an await,
    timeout of a bounded wait, closed generator) the number of register
    calls equals the number of unregister calls. Advertise issues two
    unregister calls for each register call, one on the adapter client and
    one on the advertising client, whichever client the observer was
    registered on: the unregister calls of a run that has ended are, for
    each register call in turn, the call on the adapter client and then
    the call on the advertising client with the name and the observer of
    that register call, and no other. *)
Theorem registrations_are_unregistered :
  (forall env request s,
      balanced (run (HostService.Connect env request) (HostService.enter s)))
  /\ (forall env request s,
      balanced (run (HostService.WaitConnection env request) (HostService.enter s)))
  /\ (forall env request s,
      balanced (run (HostService.WaitDisconnection env request) (HostService.enter s)))
  /\ (forall env l0, balanced (run (HostService.Scan env) l0))
  /\ (forall env l0, balanced (run (HostService.Inquiry env) l0))
  /\ (forall env request,
      balanced (run (GATTService.ExchangeMTU env request) GATTService.enter))
  /\ (forall env request l0,
      balanced (run (GATTService.WriteAttFromHandle env request) l0))
  /\ (forall env connection,
      balanced (run (GATTService.DiscoverServices env connection) GATTService.enter))
  /\ (forall env a,
      balanced (run (GATTService.DiscoverServicesSdp env a) GATTService.enter))
  /\ (forall env connection,
      balanced (run (GATTService.ClearCache env connection) GATTService.enter))
  /\ (forall s connected connection mode a uuid_,
      balanced (run HostService.FactoryReset (HostService.enter s))
      /\ balanced (run HostService.Reset (HostService.enter s))
      /\ balanced (run (HostService.ReadLocalAddress a) (HostService.enter s))
      /\ balanced (run HostService.ConnectLE (HostService.enter s))
      /\ balanced (run (HostService.Disconnect connected connection) (HostService.enter s))
      /\ balanced (run (HostService.SetDiscoverabilityMode mode) (HostService.enter s))
      /\ balanced (run HostService.SetConnectabilityMode (HostService.enter s))
      /\ balanced (run (GATTService.DiscoverServiceByUuid a uuid_) GATTService.enter))
  /\ (forall env request l0,
      let r := run (HostService.Advertise env request) l0 in
      ended (result_of r) = true ->
      count is_unregister (calls_of r) = 2 * count is_register (calls_of r)
      /\ filter is_unregister (calls_of r)
         = flat_map Advertise_unregisters (registered (calls_of r))).
Proof.
  unfold balanced.
  split.
  { intros [[] [] [] [[[] reason] | |]] [a] s; by_cases. }
  split.
  { intros [connected waited] [[a |]] [ws]; [| by_cases].
    unfold run, HostService.WaitConnection. cbn -[mem].
    destruct connected, (mem a ws), waited; by_cases. }
  split.
  { intros env request s; by_cases. }
  split.
  { intros env l0 Hend. destruct (Scan_exit env l0 Hend) as (_ & Hr & Hu & _).
    rewrite Hr, Hu. reflexivity. }
  split.
  { intros env l0 Hend. destruct (Inquiry_exit env l0 Hend) as (_ & H & _). exact H. }
  split.
  { intros [[[| n] | |]] [a m]; by_cases. }
  split.
  { intros [[[| n] | |] [[| m] | |] [[ws wh] | |]] [a h v] l0; by_cases. }
  split.
  { intros [[[services [| n]] | |]] a; by_cases. }
  split.
  { intros [uuids b1 b2 fetch changed fetched] a.
    destruct b1 as [| | v1], b2 as [| | v2], uuids as [[| u us] |], fetch, changed as [[] | |];
      by_cases. }
  split.
  { intros [[[| n] | |]] a; by_cases. }
  split.
  { intros s [] connection mode a uuid_; by_cases. }
  intros env request l0 Hend.
  split.
  - destruct (Advertise_exit_counts env request l0 Hend) as (Hr & Hu & _).
    rewrite Hr, Hu. reflexivity.
  - exact (Advertise_exit_unregisters env request l0 Hend).
Qed.

Lemma registrations_are_unregistered_witness :
  let r := run (HostService.Connect
                  {| HostService.env_is_connected := false;
                     HostService.env_is_bonded := false;
                     HostService.env_create_bond := true;
                     HostService.env_connect_device := Resolved (true, None) |}
                  {| HostService.connect_address := addr_A |})
               (HostService.enter HostService.__init__) in
  ended (result_of r) = true
  /\ count is_register (calls_of r) = count is_unregister (calls_of r).
Proof.
  split; [reflexivity |].
  apply (proj1 registrations_are_unregistered). reflexivity.
Defined.



(** The same happens when the wait runs into its timeout; and a start
    that is reported as failed leaves [None] in [started_ids], so two
    failed starts end in two calls [stop_advertising_set(None)]. *)
Example Advertise_timeout_and_failed_starts :
  let timed_out := run (HostService.Advertise
                          {| HostService.adv_turns := [advertise_turn NoEvent Woke] |}
                          advertise_once) advertise_frame0 in
  let failed_twice := run (HostService.Advertise
                             {| HostService.adv_turns :=
                                  [advertise_turn (Resolved None) Woke;
                                   advertise_turn (Resolved None) CancelledAsleep] |}
                             advertise_once) advertise_frame0 in
  result_of timed_out = Exc TimeoutError
  /\ filter is_stop_advertising_set (calls_of timed_out) = []
  /\ result_of failed_twice = Exc CancelledError
  /\ filter is_stop_advertising_set (calls_of failed_twice)
     = [stop_advertising_set None; stop_advertising_set None].
Proof. cbv. repeat split; reflexivity. Qed.



(** * The values the handlers compute *)

Example Scan_response_of_scan_result_1 :
  HostService.Scan_response scan_result_1
  = {| resp_tx_power := 0; resp_rssi := -60; resp_sid := 1;
       resp_periodic_advertising_interval := 0;
       resp_primary_phy := Some PRIMARY_1M;
       resp_secondary_phy := Some SECONDARY_NONE;
       resp_address := addr_public addr_A;
       resp_le_discoverability_mode := DISCOVERABLE_GENERAL |}.
Proof. reflexivity. Qed.

(** The limited-discoverable bit is tested first. *)
Lemma Scan_response_mode (r : scan_result) :
  resp_le_discoverability_mode (HostService.Scan_response r)
  = if Z.testbit (sr_flags r) 0 then DISCOVERABLE_LIMITED
    else if Z.testbit (sr_flags r) 1 then DISCOVERABLE_GENERAL
    else NOT_DISCOVERABLE.
Proof.
  unfold HostService.Scan_response. cbn [resp_le_discoverability_mode].
  assert (bit : forall n, (0 <= n)%Z ->
            negb (Z.land (sr_flags r) (Z.shiftl 1 n) =? 0)%Z = Z.testbit (sr_flags r) n).
  { intros n Hn. rewrite Z.shiftl_1_l.
    destruct (Z.testbit (sr_flags r) n) eqn:Hb.
    - apply negb_true_iff, Z.eqb_neq. intro H0.
      assert (Ht : Z.testbit (Z.land (sr_flags r) (2 ^ n)) n = true)
        by (rewrite Z.land_spec, Hb, Z.pow2_bits_true by lia; reflexivity).
      rewrite H0, Z.bits_0 in Ht. discriminate.
    - apply negb_false_iff, Z.eqb_eq. apply Z.bits_inj'. intros m Hm.
      rewrite Z.land_spec, Z.bits_0.
      destruct (Z.eq_dec m n) as [-> | Hne].
      + rewrite Hb. reflexivity.
      + rewrite Z.pow2_bits_false by lia. apply andb_false_r. }
  rewrite (bit 0%Z), (bit 1%Z) by lia. reflexivity.
Qed.

Example Advertise_parameters_of_advertise_once :
  HostService.Advertise_parameters advertise_once
  = {| connectable := false; scannable := true; is_legacy := true; is_anonymous := false;
       include_tx_power := true; primary_phy := phy_enum PHY1M;
       secondary_phy := phy_enum PHY1M; interval := 100; tx_power_level := 127;
       own_address_type := own_enum OwnAddressType_PUBLIC |}.
Proof. reflexivity. Qed.

Example create_gatt_service_nested :
  GATTService.create_gatt_service
    (GATTService.Service 1 0 "1800"
       [GATTService.Service 2 1 "1801" [] []]
       [GATTService.Characteristic 2 0 "2A00" 3 [GATTService.Descriptor 4 0 "2902"]])
  = GATTService.GattService_ 1 0 "1800"
      [GATTService.GattService_ 2 1 "1801" [] []]
      [GATTService.GattCharacteristic_ 2 0 "2A00" 3
         [GATTService.GattCharacteristicDescriptor_ 4 0 "2902"]].
Proof. reflexivity. Qed.

(** * Further properties of host.py *)

(** ** Connect *)

(** X1. [Connect] for a device that is already connected returns at once,
    with the cookie of the requested address and without a call. For a
    device that is not connected it issues exactly one of
    [connect_device] (the device is bonded) and [create_bond] (it is not),
    never both. *)
Theorem Connect_bonds_or_connects :
  forall (env : HostService.Connect_env) (request : HostService.ConnectRequest)
         (s : HostService.HostService),
    let r := run (HostService.Connect env request) (HostService.enter s) in
    let connected := HostService.env_is_connected env in
    let bonded := HostService.env_is_bonded env in
    (connected = true ->
       r = (Ok {| HostService.connect_connection :=
                    {| cookie := HostService.connect_address request |} |},
            HostService.enter s, w0))
    /\ count is_connect_device (calls_of r) = (if negb connected && bonded then 1 else 0)
    /\ count is_create_bond (calls_of r) = (if negb connected && negb bonded then 1 else 0).
Proof.
  intros [[] [] [] [[[] reason] | |]] [a] s; cbv; repeat split; try discriminate; reflexivity.
Qed.

(** X2. When [create_bond] reports failure, [Connect] raises
    [RuntimeError] without awaiting anything: whatever the future would
    have delivered, the call ends, and the observer it registered is
    unregistered. *)
Theorem Connect_create_bond_failure :
  forall (env : HostService.Connect_env) (request : HostService.ConnectRequest)
         (s : HostService.HostService),
    HostService.env_is_connected env = false ->
    HostService.env_is_bonded env = false ->
    HostService.env_create_bond env = false ->
    run (HostService.Connect env request) (HostService.enter s)
    = (Exc (RuntimeError Failed_to_call_create_bond), pairing_frame s,
       {| trace := [pairing_register; create_bond (HostService.connect_address request);
                    pairing_unregister];
          objects := 1 |}).
Proof.
  intros [connected bonded bond awaited_] [a] s Hc Hb Hf. cbn in Hc, Hb, Hf. subst.
  reflexivity.
Qed.

Lemma Connect_create_bond_failure_witness :
  result_of
    (run (HostService.Connect
            {| HostService.env_is_connected := false; HostService.env_is_bonded := false;
               HostService.env_create_bond := false;
               HostService.env_connect_device := NoEvent |}
            {| HostService.connect_address := addr_A |})
         (HostService.enter HostService.__init__))
  = Exc (RuntimeError Failed_to_call_create_bond).
Proof.
  rewrite (Connect_create_bond_failure
             {| HostService.env_is_connected := false; HostService.env_is_bonded := false;
                HostService.env_create_bond := false;
                HostService.env_connect_device := NoEvent |}
             {| HostService.connect_address := addr_A |}
             HostService.__init__ eq_refl eq_refl eq_refl).
  reflexivity.
Defined.

(** X3. When [Connect] waits and the future is resolved with
    [(success, reason)], the call returns the connection of the requested
    address if [success] holds and otherwise raises [RuntimeError] with
    the address and the reason of the future; in both cases the observer
    was unregistered as the last call. *)
Theorem Connect_result_follows_future :
  forall (env : HostService.Connect_env) (request : HostService.ConnectRequest)
         (s : HostService.HostService) (success : bool) (reason : option failure_reason),
    HostService.env_is_connected env = false ->
    HostService.env_is_bonded env = true \/ HostService.env_create_bond env = true ->
    HostService.env_connect_device env = Resolved (success, reason) ->
    let r := run (HostService.Connect env request) (HostService.enter s) in
    let a := HostService.connect_address request in
    result_of r
      = (if success then Ok {| HostService.connect_connection := {| cookie := a |} |}
         else Exc (RuntimeError (Failed_to_connect a reason)))
    /\ calls_of r
       = [pairing_register;
          if HostService.env_is_bonded env then connect_device a else create_bond a;
          pairing_unregister].
Proof.
  intros [connected bonded bond awaited_] [a] s success reason Hc Hb Hr.
  cbn in Hc, Hb, Hr. subst connected awaited_.
  destruct bonded, bond, success; cbv; try (split; reflexivity);
    destruct Hb; discriminate.
Qed.

Lemma Connect_result_follows_future_witness :
  result_of
    (run (HostService.Connect
            {| HostService.env_is_connected := false; HostService.env_is_bonded := false;
               HostService.env_create_bond := true;
               HostService.env_connect_device :=
                 Resolved (false, Some (failed_on_connect_all_enabled_profiles addr_A)) |}
            {| HostService.connect_address := addr_A |})
         (HostService.enter HostService.__init__))
  = Exc (RuntimeError
           (Failed_to_connect addr_A (Some (failed_on_connect_all_enabled_profiles addr_A)))).
Proof.
  exact (proj1 (Connect_result_follows_future
                  {| HostService.env_is_connected := false; HostService.env_is_bonded := false;
                     HostService.env_create_bond := true;
                     HostService.env_connect_device :=
                       Resolved (false, Some (failed_on_connect_all_enabled_profiles addr_A)) |}
                  {| HostService.connect_address := addr_A |}
                  HostService.__init__ false
                  (Some (failed_on_connect_all_enabled_profiles addr_A))
                  eq_refl (or_intror eq_refl) eq_refl)).
Defined.

(** ** The set of waited connections *)

(** X9. No sequence of requests puts an address into
    [self.waited_connections]: after [__init__] and any requests among
    FactoryReset, Reset, Connect, WaitConnection and WaitDisconnection, the
    membership test of [WaitConnection] fails for every address. *)
Theorem waited_connections_never_grows :
  forall (rs : list host_rpc) (a : address),
    mem a (HostService.waited_connections (service_after rs)) = false.
Proof.
  intros rs a. rewrite service_after_waited_connections. reflexivity.
Qed.

(** ** The results of the pairing callbacks *)

Lemma PairingObserver_callback_consistent client task_address ev f w :
  consistent f ->
  consistent (locals_of (HostService.PairingObserver_callback client task_address ev f w)).
Proof.
  intro Hf. destruct f as [| v].
  - destruct ev as [status a state | remote cod variant passkey | err result | remote];
      cbn -[String.eqb Z.eqb].
    + unfold HostService.PairingObserver_on_bond_state_changed, glib_callback.
      destruct (negb (a =? task_address)); [exact I |].
      destruct (negb (status =? 0)%Z); [cbn; split; discriminate |].
      destruct (BondState_eqb state BONDED); [| exact I].
      destruct (negb (HostService.is_connected client task_address)); [| cbn; tauto].
      unfold bind, call.
      destruct (negb (HostService.connect_all_enabled_profiles_ok client task_address));
        cbn; [split; discriminate | exact I].
    + unfold HostService.PairingObserver_on_ssp_request, glib_callback.
      destruct (negb (fst remote =? task_address)); [exact I |].
      destruct (SspVariant_eqb variant CONSENT); exact I.
    + unfold HostService.PairingObserver_on_set_pairing_confirmation, glib_callback.
      destruct (HostService.truthy err || negb result); [cbn; split; discriminate | exact I].
    + unfold HostService.PairingObserver_on_device_connected, glib_callback.
      destruct (negb (fst remote =? task_address)); [exact I |].
      destruct (HostService.is_bonded client (fst remote)); [cbn; tauto | exact I].
  - destruct (PairingObserver_callback_done client task_address ev v w) as (o & w' & E & _).
    rewrite E. exact Hf.
Qed.

Lemma deliver_consistent task_address evs :
  forall f w, consistent f -> consistent (future_after task_address evs f w).
Proof.
  unfold future_after.
  induction evs as [| [client ev] rest IH]; intros f w Hf; cbn.
  - exact Hf.
  - pose proof (PairingObserver_callback_consistent client task_address ev f w Hf) as H1.
    destruct (HostService.PairingObserver_callback client task_address ev f w) as [[o f'] w'].
    cbn in H1. specialize (IH f' w' H1).
    destruct (HostService.deliver task_address rest f' w') as [[os f''] w''].
    exact IH.
Qed.

(** X4. Whatever events a [PairingObserver] is called with, and in
    whatever order, the [connect_device] future is either still pending
    or holds a consistent pair: success without a reason, or failure with
    a reason. *)
Theorem pairing_result_is_consistent :
  forall (task_address : address)
         (evs : list (HostService.adapter_state * HostService.pairing_event)) (w : world),
    consistent (future_after task_address evs Pending w).
Proof.
  intros task_address evs w. apply deliver_consistent. exact I.
Qed.

(** X5. When [Connect] awaits a future that pairing callbacks resolved, a
    failure it raises always names a reason: it never raises the
    [RuntimeError] of a failed connection with the reason [None]. *)
Theorem Connect_failure_names_a_reason :
  forall (task_address : address)
         (evs : list (HostService.adapter_state * HostService.pairing_event)) (w : world)
         (connected bonded bond_ok : bool) (request : HostService.ConnectRequest)
         (s : HostService.HostService) (a : address),
    result_of
      (run (HostService.Connect
              {| HostService.env_is_connected := connected;
                 HostService.env_is_bonded := bonded;
                 HostService.env_create_bond := bond_ok;
                 HostService.env_connect_device :=
                   awaited_of (future_after task_address evs Pending w) |}
              request)
           (HostService.enter s))
    <> Exc (RuntimeError (Failed_to_connect a None)).
Proof.
  intros task_address evs w connected bonded bond_ok [ra] s a.
  pose proof (deliver_consistent task_address evs Pending w I) as Hc.
  destruct (future_after task_address evs Pending w) as [| [success reason]];
    destruct connected, bonded, bond_ok; cbn; try discriminate;
    destruct success; cbn; try discriminate;
    cbn in Hc; destruct reason; try discriminate;
    destruct Hc as [_ Hc]; specialize (Hc eq_refl); discriminate.
Qed.

(** X6. A pairing callback resolves the pending future with success only
    for the requested address and only in two cases: a bond-state change
    with status zero and state [BONDED] while the device is connected, or
    a connected-event while the device is bonded. *)
Theorem pairing_success_needs_bond :
  forall (client : HostService.adapter_state) (task_address : address)
         (ev : HostService.pairing_event) (w w' : world) (o : outcome unit)
         (reason : option failure_reason),
    HostService.PairingObserver_callback client task_address ev Pending w
      = (o, Done (true, reason), w') ->
    (ev = HostService.bond_state_changed 0 task_address BONDED
     /\ HostService.is_connected client task_address = true)
    \/ (exists peer, ev = HostService.device_connected (task_address, peer)
        /\ HostService.is_bonded client task_address = true).
Proof.
  intros client task_address ev w w' o reason.
  destruct ev as [status a state | remote cod variant passkey | err result | [a peer]];
    cbn -[String.eqb Z.eqb].
  - unfold HostService.PairingObserver_on_bond_state_changed, glib_callback.
    destruct (a =? task_address) eqn:Ea; cbn [negb]; [| discriminate].
    apply String.eqb_eq in Ea. subst a.
    destruct (status =? 0)%Z eqn:Es; cbn [negb]; [| discriminate].
    apply Z.eqb_eq in Es. subst status.
    destruct state as [| | v]; cbn; try discriminate.
    destruct (HostService.is_connected client task_address) eqn:Ec; cbn.
    + intros _. left. split; reflexivity.
    + unfold bind, call.
      destruct (HostService.connect_all_enabled_profiles_ok client task_address);
        cbn; discriminate.
  - unfold HostService.PairingObserver_on_ssp_request, glib_callback.
    destruct (negb (fst remote =? task_address)); [discriminate |].
    destruct (SspVariant_eqb variant CONSENT); discriminate.
  - unfold HostService.PairingObserver_on_set_pairing_confirmation, glib_callback.
    destruct (HostService.truthy err || negb result); discriminate.
  - unfold HostService.PairingObserver_on_device_connected, glib_callback. cbn [fst].
    destruct (a =? task_address) eqn:Ea; cbn [negb]; [| discriminate].
    apply String.eqb_eq in Ea. subst a.
    destruct (HostService.is_bonded client task_address) eqn:Eb; [| discriminate].
    intros _. right. exists peer. split; reflexivity.
Qed.

Lemma pairing_success_needs_bond_witness :
  (HostService.device_connected (addr_A, "peer")
     = HostService.bond_state_changed 0 addr_A BONDED
   /\ HostService.is_connected (adapter false true true) addr_A = true)
  \/ (exists peer,
        HostService.device_connected (addr_A, "peer")
          = HostService.device_connected (addr_A, peer)
        /\ HostService.is_bonded (adapter false true true) addr_A = true).
Proof.
  exact (pairing_success_needs_bond (adapter false true true) addr_A
           (HostService.device_connected (addr_A, "peer")) w0 w0 (Ok tt) None eq_refl).
Defined.

(** ** What the streaming handlers yield *)

Lemma yields_app (t u : list action) : yields (t ++ u) = yields t ++ yields u.
Proof. unfold yields. apply flat_map_app. Qed.

Lemma yields_map_yield (ys : list streamed) : yields (map yield_ ys) = ys.
Proof.
  induction ys as [| y rest IH]; [reflexivity |].
  cbn. unfold yields in IH. rewrite IH. reflexivity.
Qed.

Lemma yields_Advertise_unregisters (obs : list (observer_name * Observer)) :
  yields (flat_map Advertise_unregisters obs) = [].
Proof. induction obs as [| no rest IH]; [reflexivity |]. cbn. exact IH. Qed.

Lemma yields_map_stop (ids : list (option Z)) :
  yields (map stop_advertising_set ids) = [].
Proof. induction ids as [| i rest IH]; [reflexivity |]. cbn. exact IH. Qed.

Lemma yields_map_unregister (c : client) (obs : list (observer_name * Observer)) :
  yields (map (fun no => unregister_callback_observer c (fst no) (snd no)) obs) = [].
Proof. induction obs as [| no rest IH]; [reflexivity |]. cbn. exact IH. Qed.

(** The loop of Scan yields the response of each result it takes from the
    queue, in order. *)
Lemma Scan_loop_consumes (turns : list HostService.Scan_turn) :
  forall l w,
    exists o,
      HostService.Scan_loop turns l w
      = (o, l,
         {| trace := trace w
                     ++ map yield_
                          (map (fun r => ScanningResponse_ (HostService.Scan_response r))
                               (Scan_consumed turns));
            objects := objects w |})
      /\ (forall u, o <> Ok u).
Proof.
  induction turns as [| [res cons] rest IH]; intros l w.
  - exists Blocked. cbn. rewrite app_nil_r. destruct w. split; [reflexivity | discriminate].
  - cbn [HostService.Scan_loop Scan_consumed HostService.turn_scan_result
           HostService.turn_scan_consumer].
    destruct res as [r | |].
    + destruct cons.
      * cbn.
        destruct (IH l {| trace := trace w
                                   ++ [yield_ (ScanningResponse_ (HostService.Scan_response r))];
                          objects := objects w |}) as (o & E & Hok).
        rewrite E. exists o. cbn [trace objects]. rewrite <- app_assoc.
        split; [reflexivity | exact Hok].
      * exists (Exc GeneratorExit). split; [reflexivity | discriminate].
      * exists Blocked. split; [reflexivity | discriminate].
    + exists (Exc CancelledError). cbn. rewrite app_nil_r. destruct w.
      split; [reflexivity | discriminate].
    + exists Blocked. cbn. rewrite app_nil_r. destruct w.
      split; [reflexivity | discriminate].
Qed.

Lemma Inquiry_loop_consumes (turns : list HostService.Inquiry_turn) :
  forall l w,
    exists o,
      HostService.Inquiry_loop turns l w
      = (o, l,
         {| trace := trace w ++ map yield_ (map InquiryResponse (Inquiry_consumed turns));
            objects := objects w |})
      /\ (forall u, o <> Ok u).
Proof.
  induction turns as [| [res cons] rest IH]; intros l w.
  - exists Blocked. cbn. rewrite app_nil_r. destruct w. split; [reflexivity | discriminate].
  - cbn [HostService.Inquiry_loop Inquiry_consumed HostService.turn_device_found
           HostService.turn_inquiry_consumer].
    destruct res as [a | |].
    + destruct cons.
      * cbn.
        destruct (IH l {| trace := trace w ++ [yield_ (InquiryResponse a)];
                          objects := objects w |}) as (o & E & Hok).
        rewrite E. exists o. cbn [trace objects]. rewrite <- app_assoc.
        split; [reflexivity | exact Hok].
      * exists (Exc GeneratorExit). split; [reflexivity | discriminate].
      * exists Blocked. split; [reflexivity | discriminate].
    + exists (Exc CancelledError). cbn. rewrite app_nil_r. destruct w.
      split; [reflexivity | discriminate].
    + exists Blocked. cbn. rewrite app_nil_r. destruct w.
      split; [reflexivity | discriminate].
Qed.

Ltac consume_loop :=
  match goal with
  | |- context [HostService.Scan_loop ?t ?l ?w] =>
      let o := fresh "o" in let E := fresh "E" in let Hok := fresh "Hok" in
      destruct (Scan_loop_consumes t l w) as (o & E & Hok); rewrite !E; clear E;
      destruct o as [u | e |]; [exfalso; exact (Hok u eq_refl) | | ]
  | |- context [HostService.Inquiry_loop ?t ?l ?w] =>
      let o := fresh "o" in let E := fresh "E" in let Hok := fresh "Hok" in
      destruct (Inquiry_loop_consumes t l w) as (o & E & Hok); rewrite !E; clear E;
      destruct o as [u | e |]; [exfalso; exact (Hok u eq_refl) | | ]
  end.

Lemma flat_map_yield (ys : list streamed) :
  flat_map (fun a => match a with yield_ r => [r] | _ => [] end) (map yield_ ys) = ys.
Proof. exact (yields_map_yield ys). Qed.

Ltac read_yields :=
  cbn -[yields]; unfold yields; cbn [flat_map app]; rewrite ?flat_map_app;
  rewrite ?flat_map_yield; cbn; rewrite ?app_nil_r; reflexivity.

(** X10. Once its scanner is registered, Scan yields one response per scan
    result it takes from the queue, built by [Scan_response] from that
    result, in the order of the queue: nothing is dropped, repeated or
    reordered. When the wait for the registration does not complete it
    yields nothing. *)
Theorem Scan_yields_in_order :
  forall (env : HostService.Scan_env) (l0 : HostService.Scan_frame),
    yields (calls_of (run (HostService.Scan env) l0))
    = match HostService.scan_register_scanner env with
      | Resolved _ =>
          map (fun r => ScanningResponse_ (HostService.Scan_response r))
              (Scan_consumed (HostService.scan_turns env))
      | _ => []
      end.
Proof.
  intros [registered turns] l0.
  unfold calls_of, run, HostService.Scan.
  cbn [HostService.scan_register_scanner HostService.scan_turns].
  destruct registered as [[id |] | |];
    cbv -[HostService.Scan_loop app map yields Scan_consumed HostService.Scan_response];
    try reflexivity.
  - consume_loop; read_yields.
  - consume_loop; read_yields.
Qed.

(** X11. Once discovery runs (it was running, or its start was reported
    in time), Inquiry yields one response per address it takes from the
    queue, in the order of the queue; when the wait for the start does not
    complete it yields nothing. *)
Theorem Inquiry_yields_in_order :
  forall (env : HostService.Inquiry_env) (l0 : HostService.Inquiry_frame),
    yields (calls_of (run (HostService.Inquiry env) l0))
    = (if HostService.inq_is_discovering env then
         map InquiryResponse (Inquiry_consumed (HostService.inq_turns env))
       else
         match HostService.inq_start_inquiry env with
         | Resolved _ => map InquiryResponse (Inquiry_consumed (HostService.inq_turns env))
         | _ => []
         end).
Proof.
  intros [discovering started turns] l0.
  unfold calls_of, run, HostService.Inquiry.
  cbn [HostService.inq_is_discovering HostService.inq_start_inquiry HostService.inq_turns].
  destruct discovering; [| destruct started as [b | |]];
    cbv -[HostService.Inquiry_loop app map yields Inquiry_consumed];
    try reflexivity.
  - consume_loop; read_yields.
  - consume_loop; read_yields.
Qed.

Ltac yields_step IH :=
  cbn -[yields]; rewrite ?IH; cbn [trace objects];
  rewrite ?yields_app; cbn; rewrite ?app_nil_r, <- ?app_assoc; reflexivity.

(** A non-connectable Advertise yields nothing in its loop. *)
Lemma Advertise_loop_yields_nothing (request : AdvertiseRequest)
    (turns : list HostService.Advertise_turn) :
  req_connectable request = false ->
  forall l w,
    yields (calls_of (HostService.Advertise_loop request turns l w)) = yields (trace w).
Proof.
  intro Hc. induction turns as [| t rest IH]; intros l w.
  - reflexivity.
  - destruct t as [active start idle conn cons restart].
    cbn [HostService.Advertise_loop HostService.turn_active_advs
           HostService.turn_start_advertising HostService.turn_idle_sleep
           HostService.turn_connection HostService.turn_consumer
           HostService.turn_restart_sleep].
    rewrite Hc. cbn [negb].
    destruct active; cbn [negb].
    + destruct idle; yields_step IH.
    + destruct start as [id | |]; [| yields_step IH ..].
      destruct idle; yields_step IH.
Qed.

(** A connectable Advertise yields the connection of each address it
    takes from its queue, in order. *)
Lemma Advertise_loop_yields_accepted (request : AdvertiseRequest)
    (turns : list HostService.Advertise_turn) :
  req_connectable request = true ->
  forall l w,
    yields (calls_of (HostService.Advertise_loop request turns l w))
    = yields (trace w)
      ++ map (fun a => AdvertiseResponse {| cookie := a |}) (Advertise_accepted turns).
Proof.
  intro Hc. induction turns as [| t rest IH]; intros l w.
  - cbn. rewrite app_nil_r. reflexivity.
  - destruct t as [active start idle conn cons restart].
    cbn [HostService.Advertise_loop Advertise_accepted HostService.turn_active_advs
           HostService.turn_start_advertising HostService.turn_idle_sleep
           HostService.turn_connection HostService.turn_consumer
           HostService.turn_restart_sleep].
    rewrite Hc. cbn [negb].
    destruct active; cbn [negb].
    + destruct conn as [a | |]; [| yields_step IH ..].
      destruct cons; [| yields_step IH ..].
      destruct restart; yields_step IH.
    + destruct start as [id | |]; [| yields_step IH ..].
      destruct conn as [a | |]; [| yields_step IH ..].
      destruct cons; [| yields_step IH ..].
      destruct restart; yields_step IH.
Qed.

(** The calls of a run of Advertise: those of the [try] body, followed,
    unless the body is still suspended, by those of the [finally] block. *)
Lemma Advertise_calls (env : HostService.Advertise_env) (request : AdvertiseRequest)
    (l0 : HostService.Advertise_frame) :
  let body := HostService.Advertise_try env request
                {| HostService.started_ids := []; HostService.observers := [] |} w0 in
  let r := run (HostService.Advertise env request) l0 in
  (forall u, result_of r <> Ok u)
  /\ (calls_of r = calls_of body
      \/ calls_of r =
         (calls_of body ++ flat_map Advertise_unregisters (HostService.observers (locals_of body)))
           ++ map stop_advertising_set (HostService.started_ids (locals_of body))).
Proof.
  intros body r. subst r. rewrite Advertise_run. unfold try_finally. fold body.
  destruct (Advertise_try_inv env request) as (o & l' & w' & E & Hok & _).
  fold body in E. rewrite E.
  destruct o as [u | e |].
  - exfalso. exact (Hok u eq_refl).
  - rewrite Advertise_finally_run. cbn. split; [discriminate | right; reflexivity].
  - cbn. split; [discriminate | left; reflexivity].
Qed.

(** X12. A non-connectable Advertise never yields. A connectable one
    yields the connection of each address it takes from its queue of
    connections, in the order of the queue, and nothing else. *)
Theorem Advertise_yields_in_order :
  forall (env : HostService.Advertise_env) (request : AdvertiseRequest)
         (l0 : HostService.Advertise_frame),
    yields (calls_of (run (HostService.Advertise env request) l0))
    = (if req_connectable request then
         map (fun a => AdvertiseResponse {| cookie := a |})
             (Advertise_accepted (HostService.adv_turns env))
       else []).
Proof.
  intros env request l0.
  assert (Hbody :
    yields (calls_of (HostService.Advertise_try env request
                        {| HostService.started_ids := []; HostService.observers := [] |} w0))
    = (if req_connectable request then
         map (fun a => AdvertiseResponse {| cookie := a |})
             (Advertise_accepted (HostService.adv_turns env))
       else [])).
  { unfold HostService.Advertise_try.
    destruct (req_connectable request) eqn:Hc; cbn -[yields].
    - rewrite (Advertise_loop_yields_accepted request _ Hc). reflexivity.
    - rewrite (Advertise_loop_yields_nothing request _ Hc). reflexivity. }
  destruct (Advertise_calls env request l0) as (_ & [E | E]); rewrite E.
  - exact Hbody.
  - rewrite !yields_app, yields_Advertise_unregisters, yields_map_stop, !app_nil_r.
    exact Hbody.
Qed.

(** ** How the streaming handlers end *)

Lemma Scan_loop_ends (turns : list HostService.Scan_turn) :
  forall l w,
    let o := result_of (HostService.Scan_loop turns l w) in
    o = Blocked \/ o = Exc CancelledError \/ o = Exc GeneratorExit.
Proof.
  induction turns as [| [res cons] rest IH]; intros l w; [left; reflexivity |].
  cbn [HostService.Scan_loop HostService.turn_scan_result HostService.turn_scan_consumer].
  destruct res as [r | |]; [| right; left; reflexivity | left; reflexivity].
  destruct cons; [| right; right; reflexivity | left; reflexivity].
  cbn. apply IH.
Qed.

Lemma Inquiry_loop_ends (turns : list HostService.Inquiry_turn) :
  forall l w,
    let o := result_of (HostService.Inquiry_loop turns l w) in
    o = Blocked \/ o = Exc CancelledError \/ o = Exc GeneratorExit.
Proof.
  induction turns as [| [res cons] rest IH]; intros l w; [left; reflexivity |].
  cbn [HostService.Inquiry_loop HostService.turn_device_found
         HostService.turn_inquiry_consumer].
  destruct res as [a | |]; [| right; left; reflexivity | left; reflexivity].
  destruct cons; [| right; right; reflexivity | left; reflexivity].
  cbn. apply IH.
Qed.

Ltac stops how := cbn; split; [how; reflexivity | discriminate].

Lemma Advertise_loop_ends (request : AdvertiseRequest)
    (turns : list HostService.Advertise_turn) :
  forall l w,
    let o := result_of (HostService.Advertise_loop request turns l w) in
    suspended_or_interrupted o
    /\ (req_connectable request = false -> o <> Exc GeneratorExit).
Proof.
  unfold suspended_or_interrupted.
  induction turns as [| t rest IH]; intros l w; [stops ltac:(left) |].
  destruct t as [active start idle conn cons restart].
  cbn [HostService.Advertise_loop HostService.turn_active_advs
         HostService.turn_start_advertising HostService.turn_idle_sleep
         HostService.turn_connection HostService.turn_consumer
         HostService.turn_restart_sleep].
  destruct active; cbn [negb].
  - destruct (req_connectable request); cbn [negb].
    + destruct conn as [a | |]; [| stops ltac:(right; left) | stops ltac:(left)].
      destruct cons; [| stops ltac:(right; right; right) | stops ltac:(left)].
      destruct restart; [| stops ltac:(right; left)].
      cbn. apply IH.
    + destruct idle; [| stops ltac:(right; left)].
      cbn. apply IH.
  - destruct start as [id | |]; [| stops ltac:(right; left) | stops ltac:(right; right; left)].
    destruct (req_connectable request); cbn [negb].
    + destruct conn as [a | |]; [| stops ltac:(right; left) | stops ltac:(left)].
      destruct cons; [| stops ltac:(right; right; right) | stops ltac:(left)].
      destruct restart; [| stops ltac:(right; left)].
      cbn. apply IH.
    + destruct idle; [| stops ltac:(right; left)].
      cbn. apply IH.
Qed.

(** The [finally] block of Advertise passes on how its [try] body ended. *)
Lemma Advertise_result (env : HostService.Advertise_env) (request : AdvertiseRequest)
    (l0 : HostService.Advertise_frame) :
  result_of (run (HostService.Advertise env request) l0)
  = result_of (HostService.Advertise_try env request
                 {| HostService.started_ids := []; HostService.observers := [] |} w0).
Proof.
  rewrite Advertise_run. unfold try_finally.
  destruct (Advertise_try_inv env request) as (o & l' & w' & E & Hok & _).
  rewrite E.
  destruct o as [u | e |].
  - exfalso. exact (Hok u eq_refl).
  - rewrite Advertise_finally_run. reflexivity.
  - reflexivity.
Qed.

Ltac end_loop :=
  match goal with
  | |- context [HostService.Scan_loop ?t ?l ?w] =>
      let o := fresh "o" in let E := fresh "E" in let Hok := fresh "Hok" in
      let Hs := fresh "Hs" in
      pose proof (Scan_loop_ends t l w) as Hs; cbv zeta in Hs;
      destruct (Scan_loop_consumes t l w) as (o & E & Hok); rewrite !E in *; clear E;
      cbn [result_of fst] in Hs
  | |- context [HostService.Inquiry_loop ?t ?l ?w] =>
      let o := fresh "o" in let E := fresh "E" in let Hok := fresh "Hok" in
      let Hs := fresh "Hs" in
      pose proof (Inquiry_loop_ends t l w) as Hs; cbv zeta in Hs;
      destruct (Inquiry_loop_consumes t l w) as (o & E & Hok); rewrite !E in *; clear E;
      cbn [result_of fst] in Hs
  end;
  match goal with
  | Hs : _ \/ _ \/ _ |- _ => destruct Hs as [-> | [-> | ->]]
  end; cbn.

(** X15. A streaming handler never returns. Advertise, Scan and Inquiry
    are each found still suspended or ended by one of three exceptions:
    [CancelledError] from a cancelled await or sleep, [TimeoutError] from
    a bounded wait, [GeneratorExit] from a [yield] whose consumer closed
    the stream; no other exception leaves them. Scan ends with
    [TimeoutError] exactly when the registration of its scanner is not
    reported within the wait, Inquiry exactly when discovery has to be
    started and its start is not reported within the wait, and an
    Advertise that is not connectable is never closed at a [yield]. *)
Theorem streaming_handlers_end_interrupted :
  (forall env request l0,
      let o := result_of (run (HostService.Advertise env request) l0) in
      suspended_or_interrupted o
      /\ (req_connectable request = false -> o <> Exc GeneratorExit))
  /\ (forall env l0,
      let o := result_of (run (HostService.Scan env) l0) in
      suspended_or_interrupted o
      /\ (o = Exc TimeoutError <-> HostService.scan_register_scanner env = NoEvent))
  /\ (forall env l0,
      let o := result_of (run (HostService.Inquiry env) l0) in
      suspended_or_interrupted o
      /\ (o = Exc TimeoutError
          <-> HostService.inq_is_discovering env = false
              /\ HostService.inq_start_inquiry env = NoEvent)).
Proof.
  unfold suspended_or_interrupted.
  split; [| split].
  - intros env request l0. cbv zeta. rewrite Advertise_result.
    unfold HostService.Advertise_try.
    destruct (req_connectable request) eqn:Hc; cbn.
    + split; [| discriminate].
      exact (proj1 (Advertise_loop_ends request (HostService.adv_turns env) _ _)).
    + pose proof (Advertise_loop_ends request (HostService.adv_turns env)
                    {| HostService.started_ids := []; HostService.observers := [] |} w0) as H.
      cbv zeta in H. rewrite Hc in H. split; [exact (proj1 H) | intros _; exact (proj2 H eq_refl)].
  - intros [registration turns] l0.
    unfold result_of, run, HostService.Scan.
    cbn [HostService.scan_register_scanner HostService.scan_turns].
    destruct registration as [[id |] | |];
      cbv -[HostService.Scan_loop app filter map List.length];
      first [end_loop | cbv]; (split; [auto 6 | intuition congruence]).
  - intros [discovering started turns] l0.
    unfold result_of, run, HostService.Inquiry.
    cbn [HostService.inq_is_discovering HostService.inq_start_inquiry HostService.inq_turns].
    destruct discovering; [| destruct started as [b | |]];
      cbv -[HostService.Inquiry_loop app filter map List.length];
      first [end_loop | cbv]; (split; [auto 6 | intuition congruence]).
Qed.

(** ** The advertising sets Advertise starts *)

Ltac starts_step :=
  cbn -[filter]; rewrite ?filter_snoc; cbn [is_start_advertising_set]; rewrite ?app_nil_r;
  repeat (apply Forall_app; split); auto.

Lemma Advertise_loop_starts (request : AdvertiseRequest)
    (turns : list HostService.Advertise_turn) :
  let same := fun a =>
    a = start_advertising_set (HostService.Advertise_parameters request) (req_data request) in
  forall l w,
    Forall same (filter is_start_advertising_set (trace w)) ->
    Forall same (filter is_start_advertising_set
                   (calls_of (HostService.Advertise_loop request turns l w))).
Proof.
  intro same. induction turns as [| t rest IH]; intros l w Hw.
  - exact Hw.
  - destruct t as [active start idle conn cons restart].
    cbn [HostService.Advertise_loop HostService.turn_active_advs
           HostService.turn_start_advertising HostService.turn_idle_sleep
           HostService.turn_connection HostService.turn_consumer
           HostService.turn_restart_sleep].
    destruct active; cbn [negb].
    + destruct (req_connectable request); cbn [negb].
      * destruct conn as [a | |]; [| starts_step ..].
        destruct cons; [| starts_step ..].
        destruct restart; [| starts_step].
        cbn -[filter]. apply IH. starts_step.
      * destruct idle; [| starts_step].
        cbn -[filter]. apply IH. starts_step.
    + destruct start as [id | |]; [| starts_step; subst same; cbn; auto ..].
      destruct (req_connectable request); cbn [negb].
      * destruct conn as [a | |]; [| starts_step; subst same; cbn; auto ..].
        destruct cons; [| starts_step; subst same; cbn; auto ..].
        destruct restart; [| starts_step; subst same; cbn; auto].
        cbn -[filter]. apply IH. starts_step. subst same; cbn; auto.
      * destruct idle; [| starts_step; subst same; cbn; auto].
        cbn -[filter]. apply IH. starts_step. subst same; cbn; auto.
Qed.

(** X14. Every [start_advertising_set] call of a run of Advertise, the
    first one and each restart, carries the same parameters and the data
    of the request. Whatever the request, these parameters ask for a
    legacy, scannable, non-anonymous set that includes the tx power, at
    tx power level 127, and take [connectable] and [interval] from the
    request. *)
Theorem Advertise_starts_with_the_same_parameters :
  forall (env : HostService.Advertise_env) (request : AdvertiseRequest)
         (l0 : HostService.Advertise_frame),
    let p := HostService.Advertise_parameters request in
    Forall (fun a => a = start_advertising_set p (req_data request))
           (filter is_start_advertising_set
                   (calls_of (run (HostService.Advertise env request) l0)))
    /\ scannable p = true /\ is_legacy p = true /\ is_anonymous p = false
    /\ include_tx_power p = true /\ tx_power_level p = 127%Z
    /\ connectable p = req_connectable request /\ interval p = req_interval request.
Proof.
  intros env request l0 p. split.
  - assert (Hbody :
      Forall (fun a => a = start_advertising_set p (req_data request))
        (filter is_start_advertising_set
           (calls_of (HostService.Advertise_try env request
                        {| HostService.started_ids := []; HostService.observers := [] |} w0)))).
    { unfold HostService.Advertise_try.
      destruct (req_connectable request); cbn -[filter];
        apply Advertise_loop_starts; cbn; constructor. }
    destruct (Advertise_calls env request l0) as (_ & [E | E]); rewrite E.
    + exact Hbody.
    + rewrite !filter_app.
      rewrite (filter_of_count_zero _ _
                 (count_other_flat_map is_start_advertising_set _ (fun _ _ _ => eq_refl))).
      rewrite (filter_of_count_zero _ _
                 (count_other_map_stop is_start_advertising_set _ (fun _ => eq_refl))).
      rewrite !app_nil_r. exact Hbody.
  - destruct request as [c i [[] |] [[] |] [[] |] d]; cbn; repeat split; reflexivity.
Qed.

(** ** The discoverability mode of a scan response *)

(** X13. The discoverability mode of a scan response follows the two
    lowest bits of the flags of the scan result, and the limited bit
    wins: limited when bit 0 is set, general when bit 0 is clear and
    bit 1 is set, not discoverable when both are clear, whatever the
    other bits hold. *)
Theorem Scan_discoverability_follows_flags :
  forall (r : scan_result),
    let mode := resp_le_discoverability_mode (HostService.Scan_response r) in
    let bit := Z.testbit (sr_flags r) in
    (mode = DISCOVERABLE_LIMITED <-> bit 0%Z = true)
    /\ (mode = DISCOVERABLE_GENERAL <-> bit 0%Z = false /\ bit 1%Z = true)
    /\ (mode = NOT_DISCOVERABLE <-> bit 0%Z = false /\ bit 1%Z = false).
Proof.
  intros r mode bit. subst mode bit. rewrite Scan_response_mode.
  destruct (Z.testbit (sr_flags r) 0), (Z.testbit (sr_flags r) 1);
    repeat split; intros; try discriminate; try reflexivity;
    match goal with H : _ /\ _ |- _ => destruct H; discriminate end.
Qed.

(** * Further properties of gatt.py *)

(** ** DiscoverServices and the services it returns *)

(** X16. [DiscoverServices] awaits the search without a timeout. When it
    completes with [SUCCESS] the call returns one message per discovered
    service, in order; with any other status it raises [RuntimeError] and
    returns none of the services delivered with it. Whenever the call
    ends its observer was unregistered as the last call. *)
Theorem DiscoverServices_returns_the_services_found :
  forall (env : GATTService.DiscoverServices_env) (connection : address),
    let r := run (GATTService.DiscoverServices env connection) GATTService.enter in
    let started := [register_on gatt_client discovery_observer; discover_services connection] in
    result_of r =
      match GATTService.env_search_services env with
      | Resolved (services, status) =>
          if GattStatus_eqb status SUCCESS
          then Ok (map GATTService.create_gatt_service services)
          else Exc (RuntimeError Failed_to_find_services)
      | Cancelled => Exc CancelledError
      | NoEvent => Blocked
      end
    /\ calls_of r
       = (if ended (result_of r)
          then started ++ [unregister_on gatt_client discovery_observer]
          else started).
Proof.
  intros [[[services [| n]] | |]] connection; cbn; split; reflexivity.
Qed.

Lemma create_gatt_characteristic_handles (c : GATTService.characteristic_dict) :
  characteristic_handles (GATTService.create_gatt_characteristic c) = characteristic_ids c.
Proof.
  destruct c as [properties permissions uuid i descriptors]. cbn. f_equal.
  induction descriptors as [| [di dp du] rest IH]; cbn; [reflexivity |].
  rewrite IH. reflexivity.
Qed.

(** X17. [create_gatt_service] keeps every handle: the message built from
    a discovered service carries the instance id of the service, of its
    included services at every depth of nesting, and of its
    characteristics and their descriptors, all in the order of the
    dictionaries. *)
Theorem create_gatt_service_keeps_the_handles :
  forall (s : GATTService.service_dict),
    service_handles (GATTService.create_gatt_service s) = service_ids s.
Proof.
  fix IH 1. intros [i service_type uuid included characteristics].
  cbn [GATTService.create_gatt_service service_handles service_ids]. f_equal. f_equal.
  - revert included. fix IHl 1. intros [| x rest]; cbn [map flat_map]; [reflexivity |].
    rewrite IH, IHl. reflexivity.
  - clear IH. induction characteristics as [| c rest IHc]; cbn [map flat_map]; [reflexivity |].
    rewrite create_gatt_characteristic_handles, IHc. reflexivity.
Qed.

(** ** DiscoverServicesSdp for a device that is not bonding *)

Lemma BondState_eqb_BONDING_false (b : BondState) :
  b <> BONDING -> BondState_eqb b BONDING = false.
Proof. destruct b; [contradiction | reflexivity | reflexivity]. Qed.

(** X18. [DiscoverServicesSdp] for a device that is not bonding registers
    an observer and calls [fetch_remote]. When that call reports failure
    the handler raises [RuntimeError] without waiting. Otherwise it waits
    for the uuids to change and answers with the uuids it reads after the
    event, not the ones it read first; no uuids, or an empty list, give an
    empty response. In both cases the observer is unregistered. *)
Theorem DiscoverServicesSdp_fetches_when_not_bonding :
  forall (env : GATTService.DiscoverServicesSdp_env) (a : address),
    GATTService.env_bond_state_first env <> BONDING ->
    GATTService.env_bond_state_second env <> BONDING ->
    let r := run (GATTService.DiscoverServicesSdp env a) GATTService.enter in
    let calls := [register_on adapter_client sdp_observer; fetch_remote a;
                  unregister_on adapter_client sdp_observer] in
    (GATTService.env_fetch_remote env = false ->
       result_of r = Exc (RuntimeError (Failed_to_fetch_remote_device_uuids a))
       /\ calls_of r = calls)
    /\ (GATTService.env_fetch_remote env = true ->
        GATTService.env_device_uuids_changed env = Resolved tt ->
        result_of r
          = Ok {| service_uuids :=
                    match GATTService.env_remote_uuids_fetched env with
                    | Some l => l
                    | None => []
                    end |}
        /\ calls_of r = calls).
Proof.
  intros [uuids b1 b2 fetch changed fetched] a H1 H2. cbn in H1, H2.
  apply BondState_eqb_BONDING_false in H1, H2.
  unfold run, GATTService.DiscoverServicesSdp, try_finally.
  cbn [GATTService.env_remote_uuids GATTService.env_bond_state_first
       GATTService.env_bond_state_second GATTService.env_fetch_remote
       GATTService.env_device_uuids_changed GATTService.env_remote_uuids_fetched].
  rewrite H1, H2. cbn [andb negb].
  split.
  - intros ->. split; reflexivity.
  - intros -> ->. split; reflexivity.
Qed.

Lemma DiscoverServicesSdp_fetches_when_not_bonding_witness :
  result_of
    (run (GATTService.DiscoverServicesSdp
            {| GATTService.env_remote_uuids := Some ["1800"];
               GATTService.env_bond_state_first := BONDED;
               GATTService.env_bond_state_second := BONDED;
               GATTService.env_fetch_remote := true;
               GATTService.env_device_uuids_changed := Resolved tt;
               GATTService.env_remote_uuids_fetched := Some ["1800"; "180A"] |}
            addr_A)
         GATTService.enter)
  = Ok {| service_uuids := ["1800"; "180A"] |}.
Proof.
  assert (H : BONDED <> BONDING) by discriminate.
  pose proof (DiscoverServicesSdp_fetches_when_not_bonding
                {| GATTService.env_remote_uuids := Some ["1800"];
                   GATTService.env_bond_state_first := BONDED;
                   GATTService.env_bond_state_second := BONDED;
                   GATTService.env_fetch_remote := true;
                   GATTService.env_device_uuids_changed := Resolved tt;
                   GATTService.env_remote_uuids_fetched := Some ["1800"; "180A"] |}
                addr_A H H) as T.
  cbv zeta in T. destruct T as (_ & T).
  exact (proj1 (T eq_refl eq_refl)).
Defined.

(** ** What WriteAttFromHandle reads and writes *)

(** X19. On every path, also when an await is cancelled or never
    resolved, [WriteAttFromHandle] reads the characteristic exactly once,
    reads the descriptor only after a characteristic read that completed
    with a status other than [SUCCESS], writes the characteristic only
    after a characteristic read that completed with [SUCCESS], and writes
    the descriptor only after a failed characteristic read followed by a
    descriptor read that completed with [SUCCESS]: it never writes
    without a successful read and never issues more than one write. *)
Theorem WriteAttFromHandle_writes_after_a_successful_read :
  forall (env : GATTService.Write_env) (request : WriteRequest) (l0 : GATTService.Write_frame),
    let calls := calls_of (run (GATTService.WriteAttFromHandle env request) l0) in
    let char_ok :=
      match GATTService.env_characteristics env with
      | Resolved s => GattStatus_eqb s SUCCESS
      | _ => false
      end in
    let char_failed :=
      match GATTService.env_characteristics env with
      | Resolved s => negb (GattStatus_eqb s SUCCESS)
      | _ => false
      end in
    let desc_ok :=
      match GATTService.env_descriptors env with
      | Resolved s => GattStatus_eqb s SUCCESS
      | _ => false
      end in
    count is_read_characteristic calls = 1
    /\ count is_read_descriptor calls = (if char_failed then 1 else 0)
    /\ count is_write_characteristic calls = (if char_ok then 1 else 0)
    /\ count is_write_descriptor calls = (if char_failed && desc_ok then 1 else 0)
    /\ count is_write_characteristic calls + count is_write_descriptor calls <= 1.
Proof.
  intros [[[| n] | |] [[| m] | |] [[ws wh] | |]] [a h v] l0; cbv; repeat split; lia.
Qed.

(** ** ExchangeMTU and ClearCache *)

Lemma deliver_configure_mtu_ready (task_address : address) (evs : list configure_mtu_event) :
  forall lf w,
    deliver_configure_mtu task_address evs lf w
    = ({| fut := fut lf;
          ready := ready lf
                   ++ map snd (filter (fun ev => fst (fst ev) =? task_address) evs) |},
       w).
Proof.
  induction evs as [| [[a m] st] rest IH]; intros lf w.
  - cbn. rewrite app_nil_r. destruct lf. reflexivity.
  - cbn [deliver_configure_mtu filter fst snd].
    unfold GATTService.MTUChangeObserver_on_configure_mtu, glib_callback.
    destruct (a =? task_address); cbn [negb].
    + rewrite IH. cbn. rewrite <- app_assoc. reflexivity.
    + rewrite IH. cbn. reflexivity.
Qed.

Lemma run_ready_pending {V} (handles : list V) :
  fst (run_ready Pending handles)
  = match handles with [] => Pending | v :: _ => Done v end.
Proof.
  destruct handles as [| v rest]; [reflexivity |].
  cbn. rewrite run_ready_done. reflexivity.
Qed.

Lemma configure_mtu_future_find (task_address : address) (evs : list configure_mtu_event) :
  configure_mtu_future task_address evs
  = match find (fun ev => fst (fst ev) =? task_address) evs with
    | Some ev => Done (snd ev)
    | None => Pending
    end.
Proof.
  unfold configure_mtu_future. rewrite deliver_configure_mtu_ready.
  cbn [fst fut ready app]. rewrite run_ready_pending.
  induction evs as [| [[a m] st] rest IH]; [reflexivity |].
  cbn [filter find fst]. destruct (a =? task_address); [reflexivity | exact IH].
Qed.

(** X20. Of the [on_configure_mtu] events delivered to the observer of
    [ExchangeMTU], the first one for the address of the request decides
    the call, whatever events for other addresses come before it and
    whatever events follow: the call succeeds when the status of that
    event is [SUCCESS], raises [RuntimeError] when it is any other status,
    and stays suspended when no event is for that address. *)
Theorem ExchangeMTU_follows_the_first_matching_event :
  forall (evs : list configure_mtu_event) (request : GATTService.ExchangeMTURequest),
    let a := GATTService.mtu_connection request in
    let f := configure_mtu_future a evs in
    f = match find (fun ev => fst (fst ev) =? a) evs with
        | Some ev => Done (snd ev)
        | None => Pending
        end
    /\ result_of (run (GATTService.ExchangeMTU
                         {| GATTService.env_configure_mtu := awaited_of f |} request)
                      GATTService.enter)
       = match find (fun ev => fst (fst ev) =? a) evs with
         | Some ev =>
             if GattStatus_eqb (snd ev) SUCCESS then Ok tt
             else Exc (RuntimeError Failed_to_configure_MTU)
         | None => Blocked
         end.
Proof.
  intros evs [a m]. cbn [GATTService.mtu_connection]. cbv zeta.
  rewrite configure_mtu_future_find. split; [reflexivity |].
  destruct (find (fun ev => fst (fst ev) =? a) evs) as [[[ea em] [| n]] |]; reflexivity.
Qed.

(** X21. [ClearCache] awaits the connection update without a timeout.
    With no matching event the call stays suspended; it succeeds on a
    [SUCCESS] status, raises [RuntimeError] on any other status and
    [CancelledError] when cancelled, and never a timeout error. Whenever
    it ends its observer was unregistered as the last call. *)
Theorem ClearCache_follows_the_status :
  forall (env : GATTService.ClearCache_env) (connection : address),
    let r := run (GATTService.ClearCache env connection) GATTService.enter in
    let started := [register_on gatt_client cache_observer; refresh_device connection] in
    result_of r <> Exc TimeoutError
    /\ result_of r =
       match GATTService.env_refresh env with
       | Resolved s =>
           if GattStatus_eqb s SUCCESS then Ok tt
           else Exc (RuntimeError Failed_to_clear_cache)
       | Cancelled => Exc CancelledError
       | NoEvent => Blocked
       end
    /\ calls_of r
       = (if ended (result_of r)
          then started ++ [unregister_on gatt_client cache_observer]
          else started).
Proof.
  intros [[[| n] | |]] connection; cbn; (split; [discriminate | split; reflexivity]).
Qed.
